(** * bqschema: conversion of a Go struct type to a BigQuery table schema

    Shallow embedding of [toSchema.go] (package [bqschema]) and the
    properties of [ToSchema] that its specification states.

    [ToSchema] inspects its argument through package [reflect] only, and
    every question it asks is a question about the argument's dynamic
    type: kinds, struct fields, element types, names.  The embedding
    therefore represents a Go value by the descriptor of its type; a
    pointer that is replaced by a fresh zero value of its element type
    ([pointerGuard]) is the descriptor of that element type. *)

From Stdlib Require Import Ascii String.
From stdpp Require Import base tactics option list strings.

Local Open Scope string_scope.
Local Open Scope list_scope.
Local Open Scope nat_scope.

(** ** Package reflect, as far as the code looks at it *)

Module reflect.

(** [reflect.Kind], all 27 of them. *)
Inductive Kind : Set :=
| Invalid | Bool
| Int | Int8 | Int16 | Int32 | Int64
| Uint | Uint8 | Uint16 | Uint32 | Uint64 | Uintptr
| Float32 | Float64 | Complex64 | Complex128
| Array | Chan | Func | Interface | Map | Ptr | Slice
| String | Struct | UnsafePointer.

#[global] Instance Kind_eq_dec : EqDecision Kind.
Proof. solve_decision. Defined.

(** Kinds of the predeclared (and thereby of all named non-composite)
    types. *)
Inductive Basic : Set :=
| BBool
| BInt | BInt8 | BInt16 | BInt32 | BInt64
| BUint | BUint8 | BUint16 | BUint32 | BUint64 | BUintptr
| BFloat32 | BFloat64 | BComplex64 | BComplex128
| BString | BUnsafePointer.

Definition basicKind (b : Basic) : Kind :=
  match b with
  | BBool => Bool
  | BInt => Int | BInt8 => Int8 | BInt16 => Int16
  | BInt32 => Int32 | BInt64 => Int64
  | BUint => Uint | BUint8 => Uint8 | BUint16 => Uint16
  | BUint32 => Uint32 | BUint64 => Uint64 | BUintptr => Uintptr
  | BFloat32 => Float32 | BFloat64 => Float64
  | BComplex64 => Complex64 | BComplex128 => Complex128
  | BString => String | BUnsafePointer => UnsafePointer
  end.

(** What [reflect.Type] tells about a struct type besides its fields:
    [Name()], [PkgPath()] (both empty for an unnamed struct type) and
    the answer of [ConvertibleTo(reflect.TypeOf(time.Time{}))]. *)
Record Ident : Set := mkIdent {
  IName : string;
  IPkgPath : string;
  IConvTime : bool
}.

(** A type descriptor.  [StructField] carries what the code reads of
    [reflect.StructField]: [Name], [PkgPath] (non-empty exactly for an
    unexported field), the value of [Tag.Get("json")], and [Type].
    The name of a type that is not a struct is never looked at and is
    left out; the signature of a function type and the method set of an
    interface type likewise.  Descriptors are finite trees: a struct
    type that refers to itself through a pointer or a slice, on which
    the code would recurse without end, has no descriptor. *)
#[warnings="-register-all"] Inductive rtype : Set :=
| TBasic (b : Basic)
| TArray (len : nat) (elem : rtype)
| TSlice (elem : rtype)
| TPtr (elem : rtype)
| TMap (key elem : rtype)
| TChan (elem : rtype)
| TFunc
| TInterface
| TStruct (id : Ident) (fields : list StructField)
with StructField : Set :=
| mkField (Name PkgPath jsonTag : string) (Typ : rtype).

Definition Name (sf : StructField) : string :=
  let (n, _, _, _) := sf in n.
Definition PkgPath (sf : StructField) : string :=
  let (_, p, _, _) := sf in p.
Definition jsonTag (sf : StructField) : string :=
  let (_, _, t, _) := sf in t.
Definition FType (sf : StructField) : rtype :=
  let (_, _, _, t) := sf in t.

Definition KindOf (t : rtype) : Kind :=
  match t with
  | TBasic b => basicKind b
  | TArray _ _ => Array
  | TSlice _ => Slice
  | TPtr _ => Ptr
  | TMap _ _ => Map
  | TChan _ => Chan
  | TFunc => Func
  | TInterface => Interface
  | TStruct _ _ => Struct
  end.

(** [Type.Elem()].  The code calls it under [case reflect.Array,
    reflect.Slice] and under [Kind() == reflect.Ptr] only; for the
    kinds without an element type, where reflect would panic, the
    descriptor itself is returned. *)
Definition Elem (t : rtype) : rtype :=
  match t with
  | TArray _ e | TSlice e | TPtr e | TChan e | TMap _ e => e
  | _ => t
  end.

(** [Type.Name()], [Type.PkgPath()] and [Type.ConvertibleTo] of
    [time.Time], which the code asks of struct types only; an unnamed
    type has neither name nor path. *)
Definition TypeName (t : rtype) : string :=
  match t with TStruct id _ => IName id | _ => "" end.
Definition TypePkgPath (t : rtype) : string :=
  match t with TStruct id _ => IPkgPath id | _ => "" end.
Definition ConvertibleToTime (t : rtype) : bool :=
  match t with TStruct id _ => IConvTime id | _ => false end.

End reflect.

Import reflect.

(** ** Package strings *)

Module strings.

(** [strings.Contains(s, substr)]. *)
Fixpoint Contains (s substr : string) : bool :=
  String.prefix substr s ||
  match s with
  | EmptyString => false
  | String.String _ s' => Contains s' substr
  end.

(** [strings.Split(s, sep)] for a one-byte separator. *)
Fixpoint Split (s : string) (sep : Ascii.ascii) : list string :=
  match s with
  | EmptyString => [EmptyString]
  | String.String c s' =>
      if Ascii.eqb c sep then EmptyString :: Split s' sep
      else match Split s' sep with
           | x :: xs => String.String c x :: xs
           | [] => [String.String c EmptyString]
           end
  end.

End strings.

(** ** Package bigquery: the output *)

Module bigquery.

(** The members of [bigquery.TableFieldSchema] that the code writes
    ([Type_] is its member [Type]). *)
#[warnings="-register-all"] Inductive TableFieldSchema : Set :=
  mkTableFieldSchema {
    Mode : string;
    Name : string;
    Type_ : string;
    Fields : list TableFieldSchema }.

(** [bigquery.TableSchema], with its member [Fields]; a nil slice and
    an empty one are both [[]]. *)
Record TableSchema : Set := mkSchema { SFields : list TableFieldSchema }.

End bigquery.

Abbreviation TableFieldSchema := bigquery.TableFieldSchema.
Abbreviation TableSchema := bigquery.TableSchema.
Abbreviation mkTFS := bigquery.mkTableFieldSchema.
Abbreviation mkSchema := bigquery.mkSchema.
Abbreviation SFields := bigquery.SFields.

(** Assignments to the members of a [*bigquery.TableFieldSchema]. *)
Definition setMode (m : string) (f : TableFieldSchema) : TableFieldSchema :=
  mkTFS m (bigquery.Name f) (bigquery.Type_ f) (bigquery.Fields f).
Definition setType (t : string) (f : TableFieldSchema) : TableFieldSchema :=
  mkTFS (bigquery.Mode f) (bigquery.Name f) t (bigquery.Fields f).
Definition setFields (fs : list TableFieldSchema) (f : TableFieldSchema)
  : TableFieldSchema :=
  mkTFS (bigquery.Mode f) (bigquery.Name f) (bigquery.Type_ f) fs.

(** ** Errors and results *)

(** The errors that [ToSchema] returns.  [ErrInconvertibleType.TypeName]
    is [sf.Type.String()]; the embedding keeps the declared type whose
    name that is. *)
Inductive error : Set :=
| ErrArrayOfArray
| ErrNotStruct
| ErrInconvertibleType (TypeOf : rtype).

(** Run-time panics.  The only one the code can raise on a struct is the
    bounds check of an index expression. *)
Inductive panic : Set :=
| IndexOutOfRange (index len : nat).

(** What a call of [ToSchema] does: it returns its pair, or it panics. *)
Inductive result : Set :=
| Ret (schema : TableSchema) (err : option error)
| Panic (p : panic).

(** ** The code *)

Definition simpleType (kind : Kind) : string * bool :=
  match kind with
  | Bool => ("boolean", true)
  | Int | Int8 | Int16 | Int32 | Int64
  | Uint | Uint8 | Uint16 | Uint32 | Uint64 => ("integer", true)
  | Float32 | Float64 => ("float", true)
  | String => ("string", true)
  | _ => ("", false)
  end.

(** [pointerGuard], on a [reflect.Value] and on a [reflect.Type] alike:
    a pointer becomes a zero value of its element type, once. *)
Definition pointerGuard (v : rtype) : rtype :=
  match v with
  | TPtr e => e
  | _ => v
  end.

(** Name and mode from the json tag, the [switch] on [sf.Tag.Get("json")];
    [None] is the [continue] of [case "-"].  [jt[0]] is in range, since
    [strings.Split] never returns an empty slice. *)
Definition tagNameMode (sf : StructField) : option (string * string) :=
  let name := Name sf in
  let mode := "required" in
  let jsonTag := jsonTag sf in
  if String.eqb jsonTag "" then Some (name, mode)
  else if String.eqb jsonTag "-" then None
  else
    let jt := strings.Split jsonTag ","%char in
    let name := default "" (jt !! 0) in
    if bool_decide (1 < length jt) && String.eqb (default "" (jt !! 1)) "omitempty"
    then Some (name, "nullable")
    else Some (name, mode).

(** [schema.Fields[i].x = ...]: an assignment through an index
    expression, with its bounds check. *)
Definition assignAt (i : nat) (f : TableFieldSchema → TableFieldSchema)
    (l : list TableFieldSchema) : panic + list TableFieldSchema :=
  if bool_decide (i < length l) then inr (alter f i l)
  else inl (IndexOutOfRange i (length l)).

(** What one iteration of the [for] loop leaves behind. *)
Inductive step : Set :=
| Next (fields : list TableFieldSchema)
| Return (fields : list TableFieldSchema) (err : error)
| Fault (p : panic).

Section Body.

(** The recursive call [ToSchema(src)] of [structConversion]. *)
Variable ToSchema : rtype → result.

(** [structConversion]: type, fields and error, or the panic of the
    nested call. *)
Definition structConversion (src : rtype)
  : panic + (string * list TableFieldSchema * option error) :=
  if String.eqb (TypeName src) "Key"
     && strings.Contains (TypePkgPath src) "appengine"
  then inr ("string", [], None)
  else if ConvertibleToTime src
  then inr ("timestamp", [], None)
  else match ToSchema src with
       | Ret schema err => inr ("record", SFields schema, err)
       | Panic p => inl p
       end.

(** The body of the loop for field [i], on the field list built so
    far.  [tfs] is a pointer that [append] stores at the end of the
    list, so a write through [tfs] is a write to the position [p] it
    was appended at; a write through [schema.Fields[i]] goes to
    position [i]. *)
Definition body (i : nat) (sf : StructField)
    (Fields : list TableFieldSchema) : step :=
  if negb (String.eqb (PkgPath sf) "") then Next Fields
  else
    let v := pointerGuard (FType sf) in
    match tagNameMode sf with
    | None => Next Fields
    | Some (name, mode) =>
        let kind := KindOf v in
        let '(t, isSimple) := simpleType kind in
        let p := length Fields in
        let Fields := Fields ++ [mkTFS mode name t []] in
        if isSimple then Next Fields
        else
          match kind with
          | Struct =>
              (* mode, tfs.Mode = tfs.Mode, "nullable" *)
              let Fields := alter (setMode "nullable") p Fields in
              match structConversion v with
              | inl pn => Fault pn
              | inr (_, _, Some err) => Return Fields err
              | inr (t, fields, None) =>
                  (* tfs.Type = t *)
                  let Fields := alter (setType t) p Fields in
                  (* if t == "string" { tfs.Mode = mode } *)
                  let Fields :=
                    if String.eqb t "string"
                    then alter (setMode mode) p Fields else Fields in
                  (* tfs.Fields = fields *)
                  Next (alter (setFields fields) p Fields)
              end
          | Array | Slice =>
              (* tfs.Mode = "repeated" *)
              let Fields := alter (setMode "repeated") p Fields in
              let sub := pointerGuard (Elem v) in
              let subKind := KindOf sub in
              let '(t, isSimple) := simpleType subKind in
              if isSimple then
                (* schema.Fields[i].Type = t; continue *)
                match assignAt i (setType t) Fields with
                | inl pn => Fault pn
                | inr Fields => Next Fields
                end
              else if negb (bool_decide (subKind = Struct))
              then Return Fields ErrArrayOfArray
              else
                match structConversion sub with
                | inl pn => Fault pn
                | inr (_, _, Some err) => Return Fields err
                | inr (t, fields, None) =>
                    (* schema.Fields[i].Type = t *)
                    match assignAt i (setType t) Fields with
                    | inl pn => Fault pn
                    | inr Fields =>
                        (* schema.Fields[i].Fields = fields *)
                        match assignAt i (setFields fields) Fields with
                        | inl pn => Fault pn
                        | inr Fields => Next Fields
                        end
                    end
                end
          | _ => Return Fields (ErrInconvertibleType (FType sf))
          end
    end.

(** [for i := 0; i < t.NumField(); i++ { ... }; return schema, nil],
    from index [i] on, [fs] being the fields not yet visited. *)
Fixpoint loop (fs : list StructField) (i : nat)
    (Fields : list TableFieldSchema) : result :=
  match fs with
  | [] => Ret (mkSchema Fields) None
  | sf :: fs' =>
      match body i sf Fields with
      | Next Fields' => loop fs' (S i) Fields'
      | Return Fields' err => Ret (mkSchema Fields') (Some err)
      | Fault p => Panic p
      end
  end.

End Body.

(** [ToSchema], on the dynamic type of a non-nil [src]. *)
Fixpoint ToSchema (t : rtype) : result :=
  match t with
  | TStruct _ fields => loop ToSchema fields 0 []
  | _ => Ret (mkSchema []) (Some ErrNotStruct)
  end.

(** ** Vocabulary of the specification *)

(** A field is visible when it is exported and its json annotation is
    not the suppress marker. *)
Definition exported (sf : StructField) : bool := String.eqb (PkgPath sf) "".
Definition suppressed (sf : StructField) : bool := String.eqb (jsonTag sf) "-".
Definition visible (sf : StructField) : bool :=
  exported sf && negb (suppressed sf).

(** The n-th comma-separated component of an annotation. *)
Definition component (n : nat) (tag : string) : option string :=
  strings.Split tag "," !! n.

(** The name of an entry: the first component of a non-empty annotation,
    and the declared name without one. *)
Definition annotatedName (sf : StructField) : string :=
  if String.eqb (jsonTag sf) "" then Name sf
  else default "" (component 0 (jsonTag sf)).

(** The mode derived from the annotation: nullable when its second
    component is [omitempty], required otherwise. *)
Definition annotatedMode (sf : StructField) : string :=
  if bool_decide (component 1 (jsonTag sf) = Some "omitempty")
  then "nullable" else "required".

(** What the code takes for a primitive type, and the tag it gives it:
    the two answers of [simpleType]. *)
Definition primitive (t : rtype) : bool := snd (simpleType (KindOf t)).
Definition TypeTag (t : rtype) : string := fst (simpleType (KindOf t)).

Definition isArrayOrSlice (t : rtype) : bool :=
  match t with
  | TArray _ _ | TSlice _ => true
  | _ => false
  end.

(** The opaque key type, as [structConversion] recognises it. *)
Definition isKey (t : rtype) : bool :=
  String.eqb (TypeName t) "Key"
  && strings.Contains (TypePkgPath t) "appengine".

(** A nested struct that [structConversion] recurses into. *)
Definition plainStruct (t : rtype) : bool :=
  bool_decide (KindOf t = Struct) && negb (isKey t)
  && negb (ConvertibleToTime t).

(** The entry of a visible field of primitive type, in the words of the
    specification. *)
Definition primitiveEntry (sf : StructField) : TableFieldSchema :=
  mkTFS (annotatedMode sf) (annotatedName sf) (TypeTag (FType sf)) [].

(** Children are non-empty exactly at records, at every nesting level. *)
Fixpoint childrenIffRecord (f : TableFieldSchema) : bool :=
  match f with
  | bigquery.mkTableFieldSchema _ _ t fs =>
      Bool.eqb (negb (bool_decide (fs = []))) (String.eqb t "record")
      && forallb childrenIffRecord fs
  end.

(** Children are non-empty at records only, at every nesting level. *)
Fixpoint childrenOnlyInRecord (f : TableFieldSchema) : bool :=
  match f with
  | bigquery.mkTableFieldSchema _ _ t fs =>
      (bool_decide (fs = []) || String.eqb t "record")
      && forallb childrenOnlyInRecord fs
  end.

(** ** One iteration, without the list *)

(** What the body of the loop decides for a field, whatever the index
    and the list it runs on: nothing, an entry completed through [tfs],
    an entry completed through [schema.Fields[i]], an entry left behind
    by a [return] with an error, or the panic of a nested call. *)
Inductive verdict : Set :=
| VSkip
| VEntry (e : TableFieldSchema)
| VIndexed (e : TableFieldSchema)
| VAbort (e : TableFieldSchema) (err : error)
| VFault (p : panic).

Section Classify.

Variable ToSchema : rtype → result.

Definition classify (sf : StructField) : verdict :=
  if negb (exported sf) then VSkip
  else
    match tagNameMode sf with
    | None => VSkip
    | Some (name, mode) =>
        let v := pointerGuard (FType sf) in
        let '(t, isSimple) := simpleType (KindOf v) in
        if isSimple then VEntry (mkTFS mode name t [])
        else
          match KindOf v with
          | Struct =>
              match structConversion ToSchema v with
              | inl pn => VFault pn
              | inr (_, _, Some err) => VAbort (mkTFS "nullable" name t []) err
              | inr (t', fields, None) =>
                  VEntry (mkTFS (if String.eqb t' "string" then mode
                                 else "nullable") name t' fields)
              end
          | Array | Slice =>
              let sub := pointerGuard (Elem v) in
              let '(t', isSimple') := simpleType (KindOf sub) in
              if isSimple' then VIndexed (mkTFS "repeated" name t' [])
              else if negb (bool_decide (KindOf sub = Struct))
              then VAbort (mkTFS "repeated" name t []) ErrArrayOfArray
              else
                match structConversion ToSchema sub with
                | inl pn => VFault pn
                | inr (_, _, Some err) =>
                    VAbort (mkTFS "repeated" name t []) err
                | inr (t', fields, None) =>
                    VIndexed (mkTFS "repeated" name t' fields)
                end
          | _ => VAbort (mkTFS mode name t [])
                   (ErrInconvertibleType (FType sf))
          end
    end.

(** The entry a field ends up with when the conversion goes on. *)
Definition entryOf (sf : StructField) : option TableFieldSchema :=
  match classify sf with
  | VEntry e | VIndexed e => Some e
  | _ => None
  end.

(** The entry a field leaves in the list, also on a [return]. *)
Definition leaves (sf : StructField) (e : TableFieldSchema) : Prop :=
  match classify sf with
  | VEntry e' | VIndexed e' | VAbort e' _ => e = e'
  | _ => False
  end.

End Classify.

(** Size of a descriptor, for induction along the nested calls. *)
Fixpoint size (t : rtype) : nat :=
  match t with
  | TBasic _ | TFunc | TInterface => 1
  | TArray _ e | TSlice e | TPtr e | TChan e => S (size e)
  | TMap k e => S (size k + size e)
  | TStruct _ fs =>
      S (list_sum (map (λ sf : StructField,
                          match sf with mkField _ _ _ t => size t end) fs))
  end.

(** ** Sample types *)

Definition unnamed : Ident := mkIdent "" "" false.
Definition named (name : string) : Ident := mkIdent name "main" false.

Definition int : rtype := TBasic BInt.
Definition string_ : rtype := TBasic BString.

(** [time.Time] and what it points to. *)
Definition zone : rtype :=
  TStruct (mkIdent "zone" "time" false)
    [mkField "name" "time" "" string_;
     mkField "offset" "time" "" int;
     mkField "isDST" "time" "" (TBasic BBool)].
Definition zoneTrans : rtype :=
  TStruct (mkIdent "zoneTrans" "time" false)
    [mkField "when" "time" "" (TBasic BInt64);
     mkField "index" "time" "" (TBasic BUint8);
     mkField "isstd" "time" "" (TBasic BBool);
     mkField "isutc" "time" "" (TBasic BBool)].
Definition Location : rtype :=
  TStruct (mkIdent "Location" "time" false)
    [mkField "name" "time" "" string_;
     mkField "zone" "time" "" (TSlice zone);
     mkField "tx" "time" "" (TSlice zoneTrans);
     mkField "extend" "time" "" string_;
     mkField "cacheStart" "time" "" (TBasic BInt64);
     mkField "cacheEnd" "time" "" (TBasic BInt64);
     mkField "cacheZone" "time" "" (TPtr zone)].
Definition Time : rtype :=
  TStruct (mkIdent "Time" "time" true)
    [mkField "wall" "time" "" (TBasic BUint64);
     mkField "ext" "time" "" (TBasic BInt64);
     mkField "loc" "time" "" (TPtr Location)].


(** [struct { At time.Time }] *)
Definition Event : rtype :=
  TStruct (named "Event") [mkField "At" "" "" Time].

(** [struct { ID int `json:"id"`; secret string; At *time.Time `json:"at,omitempty"`; Seen time.Time `json:"seen"` }] *)
Definition Visit : rtype :=
  TStruct (named "Visit")
    [mkField "ID" "" "id" int;
     mkField "secret" "main" "" string_;
     mkField "At" "" "at,omitempty" (TPtr Time);
     mkField "Seen" "" "seen" Time].



(** [struct { Name string; Addr *Address `json:"addr,omitempty"`; Skip Address `json:"-"` }]
    with [type Address struct { City string `json:"city"`; Zip [5]uint8 }] *)
Definition Address : rtype :=
  TStruct (named "Address")
    [mkField "City" "" "city" string_;
     mkField "Zip" "" "" (TArray 5 (TBasic BUint8))].
Definition Customer : rtype :=
  TStruct (named "Customer")
    [mkField "Name" "" "" string_;
     mkField "Addr" "" "addr,omitempty" (TPtr Address);
     mkField "Skip" "" "-" Address].

(** [struct { Empty struct{} }] *)
Definition Hollow : rtype :=
  TStruct (named "Hollow") [mkField "Empty" "" "" (TStruct unnamed [])].

(** [struct { Attrs map[string]int; Grid [][]int }] *)
Definition AttrsThenGrid : rtype :=
  TStruct (named "AttrsThenGrid")
    [mkField "Attrs" "" "" (TMap string_ int);
     mkField "Grid" "" "" (TSlice (TSlice int))].

(** [struct { Name string; Grid [][]int; Attrs map[string]int }] *)
Definition NameGridAttrs : rtype :=
  TStruct (named "NameGridAttrs")
    [mkField "Name" "" "" string_;
     mkField "Grid" "" "" (TSlice (TSlice int));
     mkField "Attrs" "" "" (TMap string_ int)].

(** [struct { hidden int; Tags []string }] *)
Definition HiddenThenTags : rtype :=
  TStruct (named "HiddenThenTags")
    [mkField "hidden" "main" "" int;
     mkField "Tags" "" "" (TSlice string_)].


(** [struct { A bool; b float64; C float32 `json:"c,omitempty,string"`; D uint16 `json:"-"`; E string `json:",omitempty"` }] *)
Definition Flat : rtype :=
  TStruct (named "Flat")
    [mkField "A" "" "" (TBasic BBool);
     mkField "b" "main" "" (TBasic BFloat64);
     mkField "C" "" "c,omitempty,string" (TBasic BFloat32);
     mkField "D" "" "-" (TBasic BUint16);
     mkField "E" "" ",omitempty" string_].

(** ** Arguments of type [interface{}] *)

(** An argument [src interface{}] is nil ([None]) or a value, of which
    the code looks at the dynamic type only.  On nil,
    [reflect.ValueOf(src)] is the zero [Value] and [value.Type()]
    panics inside package reflect, before anything else is done. *)
Inductive outcome : Set :=
| Returned (schema : TableSchema) (err : option error)
| Panicked (p : panic)
| PanickedInReflect.

Definition ToSchemaOf (src : option rtype) : outcome :=
  match src with
  | None => PanickedInReflect
  | Some t =>
      match ToSchema t with
      | Ret schema err => Returned schema err
      | Panic p => Panicked p
      end
  end.

(** ** The panicking entry point *)

(** What a call of [MustToSchema] does: it returns the schema, it
    panics with the error of [ToSchema] ([panic(err)]), or the call of
    [ToSchema] panics itself. *)
Inductive must : Set :=
| Returns (schema : TableSchema)
| PanicsWith (err : error)
| Faults (p : panic)
| FaultsInReflect.

Definition MustToSchema (src : option rtype) : must :=
  match ToSchemaOf src with
  | Returned schema None => Returns schema
  | Returned _ (Some err) => PanicsWith err
  | Panicked p => Faults p
  | PanickedInReflect => FaultsInReflect
  end.

(** ** More vocabulary *)

(** The three modes and the six type tags of the BigQuery format. *)
Definition validMode (m : string) : bool :=
  String.eqb m "required" || String.eqb m "nullable"
  || String.eqb m "repeated".
Definition validType (t : string) : bool :=
  String.eqb t "boolean" || String.eqb t "integer" || String.eqb t "float"
  || String.eqb t "string" || String.eqb t "timestamp"
  || String.eqb t "record".

(** An entry and all its descendants carry a mode and a type tag of the
    format. *)
Fixpoint wellTagged (f : TableFieldSchema) : bool :=
  match f with
  | bigquery.mkTableFieldSchema m _ t fs =>
      validMode m && validType t && forallb wellTagged fs
  end.

(** A visible field that the loop takes to its array branch. *)
Definition repeatedField (sf : StructField) : bool :=
  visible sf && isArrayOrSlice (pointerGuard (FType sf)).

(** No visible array or slice field is declared after a skipped field. *)
Fixpoint arraysBeforeSkips (fs : list StructField) : bool :=
  match fs with
  | [] => true
  | sf :: fs' =>
      if visible sf then arraysBeforeSkips fs'
      else forallb (λ sf', negb (repeatedField sf')) fs'
  end.

(** A property of field lists holds at every struct type inside a
    descriptor. *)
Fixpoint everyStruct (P : list StructField → bool) (t : rtype) : bool :=
  match t with
  | TBasic _ | TFunc | TInterface => true
  | TArray _ e | TSlice e | TPtr e | TChan e => everyStruct P e
  | TMap k e => everyStruct P k && everyStruct P e
  | TStruct _ fs =>
      P fs
      && forallb (λ sf : StructField,
                    match sf with mkField _ _ _ t => everyStruct P t end) fs
  end.

(** ** More sample types *)

(** [type Key struct { ID int64 }] of a package [example.com/appengine/ids] *)
Definition Key : rtype :=
  TStruct (mkIdent "Key" "example.com/appengine/ids" false)
    [mkField "ID" "" "" (TBasic BInt64)].

(** [struct { Owner *ids.Key `json:"owner"`; Ref ids.Key `json:"ref,omitempty"` }] *)
Definition Owned : rtype :=
  TStruct (named "Owned")
    [mkField "Owner" "" "owner" (TPtr Key);
     mkField "Ref" "" "ref,omitempty" Key].

(** [struct { Name string; Deep **int; Tags []string }] *)
Definition Indirect : rtype :=
  TStruct (named "Indirect")
    [mkField "Name" "" "" string_;
     mkField "Deep" "" "" (TPtr (TPtr int));
     mkField "Tags" "" "" (TSlice string_)].

(** [struct { ID int; Lines []*Address `json:"lines,omitempty"`; Stamps [2]time.Time; note string }] *)
Definition Order : rtype :=
  TStruct (named "Order")
    [mkField "ID" "" "" int;
     mkField "Lines" "" "lines,omitempty" (TSlice (TPtr Address));
     mkField "Stamps" "" "" (TArray 2 Time);
     mkField "note" "main" "" string_].

(** [struct { Name string; Inner struct { Attrs map[string]int }; Tags []string }] *)
Definition NameInnerTags : rtype :=
  TStruct (named "NameInnerTags")
    [mkField "Name" "" "" string_;
     mkField "Inner" "" ""
       (TStruct unnamed [mkField "Attrs" "" "" (TMap string_ int)]);
     mkField "Tags" "" "" (TSlice string_)].

(** [struct { hidden int; Rows []struct { Attrs map[string]int } }] *)
Definition HiddenThenRows : rtype :=
  TStruct (named "HiddenThenRows")
    [mkField "hidden" "main" "" int;
     mkField "Rows" "" ""
       (TSlice (TStruct unnamed [mkField "Attrs" "" "" (TMap string_ int)]))].

(** ** Primitive types, by their names *)

(** The primitive types in the words of the specification, with the
    type tag of each: boolean; integer, of any width and signedness;
    float, of any width; string.  [uintptr] is one of the integer types
    of Go. *)
Definition specifiedTag (t : rtype) : option string :=
  match t with
  | TBasic BBool => Some "boolean"
  | TBasic (BInt | BInt8 | BInt16 | BInt32 | BInt64
           | BUint | BUint8 | BUint16 | BUint32 | BUint64
           | BUintptr) => Some "integer"
  | TBasic (BFloat32 | BFloat64) => Some "float"
  | TBasic BString => Some "string"
  | _ => None
  end.

(** The same without [uintptr]. *)
Definition convertedTag (t : rtype) : option string :=
  match t with
  | TBasic BUintptr => None
  | _ => specifiedTag t
  end.

(** The entry of a visible field of such a type. *)
Definition convertedEntry (sf : StructField) : TableFieldSchema :=
  mkTFS (annotatedMode sf) (annotatedName sf)
    (default "" (convertedTag (FType sf))) [].

(** ** Records and the structs they describe *)

Definition fieldsOf (t : rtype) : list StructField :=
  match t with
  | TStruct _ fs => fs
  | _ => []
  end.

(** The type that the entry of a field describes: the pointer-unwrapped
    type of the field, and for an array or a slice its pointer-unwrapped
    element type. *)
Definition describedType (sf : StructField) : rtype :=
  let v := pointerGuard (FType sf) in
  if isArrayOrSlice v then pointerGuard (Elem v) else v.

Fixpoint all2 {A B} (f : A → B → bool) (l : list A) (k : list B)
    {struct k} : bool :=
  match k, l with
  | [], [] => true
  | y :: k', x :: l' => f x y && all2 f l' k'
  | _, _ => false
  end.

(** An entry has children exactly when it is a record and the struct it
    describes has a visible field, and so have its children, each
    against the visible field it stands for. *)
Fixpoint childrenAsDeclared (sf : StructField) (e : TableFieldSchema)
    {struct e} : bool :=
  match e with
  | bigquery.mkTableFieldSchema _ _ t children =>
      let declared := List.filter visible (fieldsOf (describedType sf)) in
      if String.eqb t "record"
      then Bool.eqb (bool_decide (children = []))
             (bool_decide (length declared = 0))
           && all2 childrenAsDeclared declared children
      else bool_decide (children = [])
  end.

(** ** Sample types with [uintptr] *)

(** [struct { P uintptr }] *)
Definition Handle : rtype :=
  TStruct (named "Handle") [mkField "P" "" "" (TBasic BUintptr)].


(** * Properties *)

(** ** Lists and strings *)

Lemma alter_snoc {A} (f : A → A) (l : list A) (x : A) :
  alter f (length l) (l ++ [x]) = l ++ [f x].
Proof.
  replace (length l) with (length l + 0) by lia.
  by rewrite alter_app_r.
Qed.

Lemma assignAt_snoc i f (l : list TableFieldSchema) x :
  length l ≤ i →
  assignAt i f (l ++ [x]) =
    if bool_decide (i = length l) then inr (l ++ [f x])
    else inl (IndexOutOfRange i (S (length l))).
Proof.
  intros Hle. unfold assignAt. rewrite length_app. simpl.
  replace (length l + 1) with (S (length l)) by lia.
  repeat case_bool_decide; try lia.
  - subst i. by rewrite alter_snoc.
  - done.
Qed.

Lemma Split_not_nil s sep : strings.Split s sep ≠ [].
Proof.
  induction s as [|c s IH]; simpl; [done|].
  destruct (Ascii.eqb c sep); [done|].
  by destruct (strings.Split s sep).
Qed.

(** ** The body of the loop and its verdict *)

Lemma simpleType_not_simple k t : simpleType k = (t, false) → t = "".
Proof. destruct k; simpl; congruence. Qed.

Lemma visible_classify rec sf :
  visible sf = match classify rec sf with VSkip => false | _ => true end.
Proof.
  unfold visible, classify, suppressed, tagNameMode.
  destruct (exported sf); simpl; [|done].
  destruct (String.eqb (jsonTag sf) "") eqn:E0.
  - apply String.eqb_eq in E0. rewrite E0. simpl.
    repeat case_match; done.
  - destruct (String.eqb (jsonTag sf) "-"); simpl; [done|].
    repeat case_match; done.
Qed.

Lemma body_classify rec i sf acc :
  length acc ≤ i →
  body rec i sf acc =
    match classify rec sf with
    | VSkip => Next acc
    | VEntry e => Next (acc ++ [e])
    | VIndexed e =>
        if bool_decide (i = length acc) then Next (acc ++ [e])
        else Fault (IndexOutOfRange i (S (length acc)))
    | VAbort e err => Return (acc ++ [e]) err
    | VFault p => Fault p
    end.
Proof.
  intros Hle. unfold body, classify, exported.
  destruct (String.eqb (PkgPath sf) ""); simpl; [|done].
  destruct (tagNameMode sf) as [[name mode]|]; [|done].
  destruct (simpleType (KindOf (pointerGuard (FType sf))))
    as [t isSimple] eqn:Est.
  destruct isSimple; [done|].
  rewrite !alter_snoc.
  destruct (KindOf (pointerGuard (FType sf))) eqn:Ek; try done.
  - (* Array *)
    destruct (simpleType (KindOf (pointerGuard (Elem (pointerGuard (FType sf))))))
      as [t' isSimple'].
    destruct isSimple'.
    { rewrite assignAt_snoc by done. by case_bool_decide. }
    destruct (negb _); [done|].
    destruct (structConversion rec _) as [pn|[[t'' fields] [err|]]]; try done.
    rewrite assignAt_snoc by done. case_bool_decide; [|done].
    rewrite assignAt_snoc by done. by rewrite bool_decide_true.
  - (* Slice *)
    destruct (simpleType (KindOf (pointerGuard (Elem (pointerGuard (FType sf))))))
      as [t' isSimple'].
    destruct isSimple'.
    { rewrite assignAt_snoc by done. by case_bool_decide. }
    destruct (negb _); [done|].
    destruct (structConversion rec _) as [pn|[[t'' fields] [err|]]]; try done.
    rewrite assignAt_snoc by done. case_bool_decide; [|done].
    rewrite assignAt_snoc by done. by rewrite bool_decide_true.
  - (* Struct *)
    destruct (structConversion rec _) as [pn|[[t'' fields] [err|]]]; try done.
    rewrite alter_snoc.
    destruct (String.eqb t'' "string"); by rewrite ?alter_snoc.
Qed.

(** ** The loop *)

Lemma loop_app rec pre post i acc :
  loop rec (pre ++ post) i acc =
    match loop rec pre i acc with
    | Ret schema None => loop rec post (i + length pre) (SFields schema)
    | r => r
    end.
Proof.
  revert i acc. induction pre as [|sf pre IH]; intros i acc; simpl.
  - by rewrite Nat.add_0_r.
  - destruct (body rec i sf acc); try done.
    rewrite IH. by replace (S i + length pre) with (i + S (length pre)) by lia.
Qed.

(** A conversion that goes through gives every visible field its entry,
    in order, after what was there. *)
Lemma loop_ok rec fs i acc out :
  length acc ≤ i →
  loop rec fs i acc = Ret (mkSchema out) None →
  ∃ new, out = acc ++ new
         ∧ Forall2 (λ sf e, entryOf rec sf = Some e) (List.filter visible fs) new.
Proof.
  revert i acc. induction fs as [|sf fs IH]; intros i acc Hle H; simpl in *.
  - exists []. rewrite app_nil_r. split; [congruence|constructor].
  - rewrite body_classify in H by done.
    rewrite (visible_classify rec sf). unfold entryOf in *.
    destruct (classify rec sf) as [|e|e|e err|p] eqn:Hc.
    + apply IH in H; [done|lia].
    + apply IH in H as (new & -> & HF); [|rewrite length_app; simpl; lia].
      exists (e :: new). rewrite <-app_assoc. split; [done|].
      constructor; [by rewrite Hc|done].
    + case_bool_decide; [|done].
      apply IH in H as (new & -> & HF); [|rewrite length_app; simpl; lia].
      exists (e :: new). rewrite <-app_assoc. split; [done|].
      constructor; [by rewrite Hc|done].
    + done.
    + done.
Qed.

(** Whatever is returned extends what was there, by at most one entry
    for each visible field, each left by one of the fields. *)
Lemma loop_any rec fs i acc out err :
  length acc ≤ i →
  loop rec fs i acc = Ret (mkSchema out) err →
  ∃ new, out = acc ++ new
         ∧ length new ≤ length (List.filter visible fs)
         ∧ Forall (λ e, ∃ sf, sf ∈ fs ∧ leaves rec sf e) new.
Proof.
  revert i acc. induction fs as [|sf fs IH]; intros i acc Hle H; simpl in *.
  - exists []. rewrite app_nil_r. split_and!; [congruence|done|constructor].
  - rewrite body_classify in H by done.
    rewrite (visible_classify rec sf).
    assert (Hcons : ∀ e new, leaves rec sf e →
              Forall (λ e, ∃ sf', sf' ∈ fs ∧ leaves rec sf' e) new →
              Forall (λ e, ∃ sf', sf' ∈ sf :: fs ∧ leaves rec sf' e) (e :: new)).
    { intros e new He HF. constructor.
      - exists sf. split; [left|done].
      - eapply Forall_impl; [exact HF|].
        intros e' (sf' & Hin & Hl). exists sf'. split; [by right|done]. }
    destruct (classify rec sf) as [|e|e|e err'|p] eqn:Hc.
    + apply IH in H as (new & -> & Hlen & HF); [|lia].
      exists new. split_and!; [done|done|].
      eapply Forall_impl; [exact HF|].
      intros e' (sf' & Hin & Hl). exists sf'. split; [by right|done].
    + apply IH in H as (new & -> & Hlen & HF); [|rewrite length_app; simpl; lia].
      exists (e :: new). rewrite <-app_assoc. split_and!; [done|simpl; lia|].
      apply Hcons; [|done]. unfold leaves. by rewrite Hc.
    + case_bool_decide; [|done].
      apply IH in H as (new & -> & Hlen & HF); [|rewrite length_app; simpl; lia].
      exists (e :: new). rewrite <-app_assoc. split_and!; [done|simpl; lia|].
      apply Hcons; [|done]. unfold leaves. by rewrite Hc.
    + injection H as <- <-. exists [e]. split_and!; [done|simpl; lia|].
      apply Hcons; [|constructor]. unfold leaves. by rewrite Hc.
    + done.
Qed.

Lemma filter_visible_length fs : length (List.filter visible fs) ≤ length fs.
Proof.
  induction fs as [|sf fs IH]; simpl; [done|].
  destruct (visible sf); simpl; lia.
Qed.

(** The entry at the place of a visible field. *)
Lemma loop_at rec pre sf post out err :
  visible sf = true →
  loop rec (pre ++ sf :: post) 0 [] = Ret (mkSchema out) err →
  (∀ e, out !! length (List.filter visible pre) = Some e → leaves rec sf e)
  ∧ (err = None →
     ∃ e, out !! length (List.filter visible pre) = Some e
          ∧ entryOf rec sf = Some e
          ∧ length out = length (List.filter visible (pre ++ sf :: post))).
Proof.
  intros Hvis H. split.
  - intros e He. rewrite loop_app in H.
    destruct (loop rec pre 0 []) as [[acc] [err0|]|p] eqn:Hpre; simpl in H.
    + injection H as <- <-.
      apply loop_any in Hpre as (new & -> & Hlen & _); [|simpl; lia].
      simpl in He. apply lookup_lt_Some in He. lia.
    + apply loop_ok in Hpre as (new & -> & HF); [|simpl; lia].
      simpl in *. apply Forall2_length in HF. rewrite HF in He.
      pose proof (filter_visible_length pre) as Hpl.
      rewrite body_classify in H by lia.
      rewrite (visible_classify rec sf) in Hvis. unfold leaves.
      destruct (classify rec sf) as [|e'|e'|e' err'|p] eqn:Hc; try done.
      * apply loop_any in H as (rest & -> & _); [|rewrite length_app; simpl; lia].
        rewrite <-app_assoc in He. simpl in He.
        rewrite list_lookup_middle in He by done.
        congruence.
      * case_bool_decide; [|done].
        apply loop_any in H as (rest & -> & _); [|rewrite length_app; simpl; lia].
        rewrite <-app_assoc in He. simpl in He.
        rewrite list_lookup_middle in He by done.
        congruence.
      * injection H as <- <-.
        rewrite list_lookup_middle in He by done. congruence.
    + done.
  - intros ->. apply loop_ok in H as (new & -> & HF); [|simpl; lia].
    simpl. pose proof (Forall2_length _ _ _ HF) as Hlen.
    rewrite List.filter_app in HF. simpl in HF. rewrite Hvis in HF.
    apply Forall2_app_inv_l in HF as (k1 & k2 & HF1 & HF2 & ->).
    apply Forall2_cons_inv_l in HF2 as (e & k2' & He & HF2 & ->).
    exists e. split_and!; [|done|done].
    apply list_lookup_middle. by apply Forall2_length in HF1.
Qed.

(** ** Annotations *)

Lemma tagNameMode_spec sf :
  tagNameMode sf =
    if suppressed sf then None else Some (annotatedName sf, annotatedMode sf).
Proof.
  unfold tagNameMode, suppressed, annotatedName, annotatedMode, component.
  destruct (String.eqb (jsonTag sf) "") eqn:E0.
  - apply String.eqb_eq in E0. by rewrite E0.
  - destruct (String.eqb (jsonTag sf) "-"); [done|].
    destruct (strings.Split (jsonTag sf) "," !! 1) as [c|] eqn:E1; simpl.
    + rewrite bool_decide_true by (by apply lookup_lt_Some in E1).
      simpl. destruct (String.eqb c "omitempty") eqn:Ec.
      * apply String.eqb_eq in Ec. subst c. by rewrite bool_decide_true.
      * apply String.eqb_neq in Ec. rewrite bool_decide_false; [done|congruence].
    + rewrite bool_decide_false by (apply lookup_ge_None in E1; lia).
      done.
Qed.

Lemma visible_tagNameMode sf :
  visible sf = true →
  exported sf = true
  ∧ tagNameMode sf = Some (annotatedName sf, annotatedMode sf).
Proof.
  unfold visible. rewrite tagNameMode_spec.
  destruct (exported sf), (suppressed sf); simpl; done.
Qed.

(** ** Verdicts by the kind of field *)

Section Verdicts.

Variable rec : rtype → result.

Lemma leaves_name sf e : leaves rec sf e → bigquery.Name e = annotatedName sf.
Proof.
  unfold leaves, classify. rewrite tagNameMode_spec.
  destruct (exported sf), (suppressed sf); simpl; try done.
  repeat case_match; intros; simplify_eq; done.
Qed.

Lemma entryOf_leaves sf e : entryOf rec sf = Some e → leaves rec sf e.
Proof.
  unfold entryOf, leaves. destruct (classify rec sf); congruence.
Qed.

Lemma primitive_pointerGuard t : primitive t = true → pointerGuard t = t.
Proof. by destruct t. Qed.

Lemma classify_primitive sf :
  visible sf = true → primitive (FType sf) = true →
  classify rec sf = VEntry (primitiveEntry sf).
Proof.
  intros [Hex Htag]%visible_tagNameMode Hp.
  unfold classify, primitiveEntry, TypeTag. rewrite Hex, Htag. simpl.
  rewrite primitive_pointerGuard by done.
  unfold primitive in Hp.
  destruct (simpleType (KindOf (FType sf))) as [t s]. simpl in *. by subst s.
Qed.

Lemma classify_timestamp sf :
  visible sf = true →
  isKey (pointerGuard (FType sf)) = false →
  ConvertibleToTime (pointerGuard (FType sf)) = true →
  classify rec sf =
    VEntry (mkTFS "nullable" (annotatedName sf) "timestamp" []).
Proof.
  intros [Hex Htag]%visible_tagNameMode Hk Hc.
  unfold classify, structConversion. rewrite Hex, Htag. simpl.
  unfold isKey in Hk.
  destruct (pointerGuard (FType sf)); try done.
  simpl in *. by rewrite Hk, Hc.
Qed.

Lemma classify_record sf :
  visible sf = true →
  plainStruct (pointerGuard (FType sf)) = true →
  classify rec sf =
    match rec (pointerGuard (FType sf)) with
    | Ret sub None =>
        VEntry (mkTFS "nullable" (annotatedName sf) "record" (SFields sub))
    | Ret sub (Some err) =>
        VAbort (mkTFS "nullable" (annotatedName sf) "" []) err
    | Panic p => VFault p
    end.
Proof.
  intros [Hex Htag]%visible_tagNameMode Hp.
  unfold classify, structConversion. rewrite Hex, Htag. simpl.
  unfold plainStruct, isKey in Hp.
  destruct (pointerGuard (FType sf)) as [b| | | | | | | |id fields] eqn:Hv;
    try done; [by destruct b|].
  simpl in *.
  destruct (String.eqb (IName id) "Key" && _); [done|].
  destruct (IConvTime id); [done|].
  by destruct (rec (TStruct id fields)) as [sub [err|]|p].
Qed.

Lemma isArrayOrSlice_kind t :
  isArrayOrSlice t = true →
  pointerGuard t = t ∧ (KindOf t = Array ∨ KindOf t = Slice).
Proof. destruct t; simpl; try done; auto. Qed.

Lemma classify_repeated_primitive sf :
  visible sf = true →
  isArrayOrSlice (FType sf) = true →
  primitive (pointerGuard (Elem (FType sf))) = true →
  classify rec sf =
    VIndexed (mkTFS "repeated" (annotatedName sf)
                (TypeTag (pointerGuard (Elem (FType sf)))) []).
Proof.
  intros [Hex Htag]%visible_tagNameMode [Hg Hk]%isArrayOrSlice_kind Hp.
  unfold classify, TypeTag. rewrite Hex, Htag, Hg. simpl.
  unfold primitive in Hp.
  destruct (simpleType (KindOf (pointerGuard (Elem (FType sf))))) as [t s].
  simpl in *. subst s.
  by destruct Hk as [-> | ->].
Qed.

Lemma classify_array_of_arrays sf :
  visible sf = true →
  isArrayOrSlice (FType sf) = true →
  primitive (pointerGuard (Elem (FType sf))) = false →
  KindOf (pointerGuard (Elem (FType sf))) ≠ Struct →
  classify rec sf =
    VAbort (mkTFS "repeated" (annotatedName sf) "" []) ErrArrayOfArray.
Proof.
  intros [Hex Htag]%visible_tagNameMode [Hg Hk]%isArrayOrSlice_kind Hp Hs.
  unfold classify. rewrite Hex, Htag, Hg. simpl.
  unfold primitive in Hp.
  destruct (simpleType (KindOf (pointerGuard (Elem (FType sf))))) as [t s].
  simpl in *. subst s.
  rewrite bool_decide_false by done.
  by destruct Hk as [-> | ->].
Qed.

End Verdicts.

(** ** Input that is not a struct *)

(** C7. For every input whose runtime type is not a struct, [ToSchema]
    returns a schema with an empty field list together with
    [ErrNotStruct]; no field is processed. *)
Theorem ToSchema_not_struct (t : rtype) :
  KindOf t ≠ Struct →
  ToSchema t = Ret (mkSchema []) (Some ErrNotStruct).
Proof. by destruct t. Qed.

Lemma ToSchema_not_struct_witness :
  KindOf (TMap string_ int) ≠ Struct
  ∧ ToSchema (TMap string_ int) = Ret (mkSchema []) (Some ErrNotStruct).
Proof.
  split; [discriminate|].
  apply (ToSchema_not_struct (TMap string_ int)). discriminate.
Defined.

(** ** One entry for each visible field *)

(** C4. When [ToSchema] returns a nil error on a struct, its field list
    corresponds one to one, in declaration order, to the fields that are
    exported and not annotated ["-"], each entry carrying the name of
    its field; unexported fields and fields annotated ["-"] have no
    entry, whatever their type. *)
Theorem ToSchema_visible_fields_in_order id fs schema :
  ToSchema (TStruct id fs) = Ret schema None →
  Forall2 (λ sf e, bigquery.Name e = annotatedName sf)
    (List.filter (λ sf, exported sf && negb (suppressed sf)) fs)
    (SFields schema).
Proof.
  destruct schema as [out]. simpl. intros H.
  apply loop_ok in H as (new & -> & HF); [|simpl; lia].
  simpl. eapply Forall2_impl; [exact HF|].
  intros sf e He. by apply (leaves_name ToSchema), entryOf_leaves.
Qed.

Lemma ToSchema_visible_fields_in_order_witness :
  ToSchema Customer =
    Ret (mkSchema
           [mkTFS "required" "Name" "string" [];
            mkTFS "nullable" "addr" "record"
              [mkTFS "required" "city" "string" [];
               mkTFS "repeated" "Zip" "integer" []]]) None
  ∧ Forall2 (λ sf e, bigquery.Name e = annotatedName sf)
      [mkField "Name" "" "" string_;
       mkField "Addr" "" "addr,omitempty" (TPtr Address)]
      [mkTFS "required" "Name" "string" [];
       mkTFS "nullable" "addr" "record"
         [mkTFS "required" "city" "string" [];
          mkTFS "repeated" "Zip" "integer" []]].
Proof.
  split; [reflexivity|].
  apply (ToSchema_visible_fields_in_order (named "Customer")
           [mkField "Name" "" "" string_;
            mkField "Addr" "" "addr,omitempty" (TPtr Address);
            mkField "Skip" "" "-" Address]
           (mkSchema
              [mkTFS "required" "Name" "string" [];
               mkTFS "nullable" "addr" "record"
                 [mkTFS "required" "city" "string" [];
                  mkTFS "repeated" "Zip" "integer" []]])).
  reflexivity.
Defined.

(** ** Structs of primitive fields *)

Lemma loop_primitive rec fs i acc :
  Forall (λ sf, visible sf = true → primitive (FType sf) = true) fs →
  length acc ≤ i →
  loop rec fs i acc =
    Ret (mkSchema (acc ++ map primitiveEntry (List.filter visible fs))) None.
Proof.
  intros HF. revert i acc.
  induction HF as [|sf fs Hsf HF IH]; intros i acc Hle; simpl.
  - by rewrite app_nil_r.
  - rewrite body_classify by done.
    destruct (visible sf) eqn:Hvis.
    + rewrite classify_primitive by auto.
      rewrite IH by (rewrite length_app; simpl; lia).
      by rewrite <-app_assoc.
    + pose proof (visible_classify rec sf) as Hc. rewrite Hvis in Hc.
      destruct (classify rec sf); try done.
      apply IH. lia.
Qed.

(** [simpleType] against the names of the types: the kinds it accepts
    are the ten integer kinds, the two floating ones, bool and string,
    each with its tag. *)
Lemma convertedTag_simpleType t tag :
  convertedTag t = Some tag → simpleType (KindOf t) = (tag, true).
Proof.
  destruct t as [b| | | | | | | |]; try done.
  destruct b; simpl; intros [= <-]; done.
Qed.

Lemma convertedTag_None_simpleType t :
  convertedTag t = None → snd (simpleType (KindOf t)) = false.
Proof.
  destruct t as [b| | | | | | | |]; try done. by destruct b.
Qed.

Lemma convertedEntry_primitive sf :
  is_Some (convertedTag (FType sf)) →
  primitive (FType sf) = true ∧ primitiveEntry sf = convertedEntry sf.
Proof.
  intros [tag Htag]. unfold primitive, primitiveEntry, convertedEntry, TypeTag.
  rewrite Htag. by rewrite (convertedTag_simpleType _ _ Htag).
Qed.

Lemma loop_converted rec fs i acc :
  Forall (λ sf, visible sf = true → is_Some (convertedTag (FType sf))) fs →
  length acc ≤ i →
  loop rec fs i acc =
    Ret (mkSchema (acc ++ map convertedEntry (List.filter visible fs))) None.
Proof.
  intros HF Hle. rewrite loop_primitive; [|clear Hle|done].
  - do 3 f_equal. induction HF as [|sf fs Hsf HF IH]; simpl; [done|].
    destruct (visible sf) eqn:Hv; simpl; [|done].
    f_equal; [|done]. by apply convertedEntry_primitive, Hsf.
  - eapply Forall_impl; [exact HF|]. intros sf Hsf Hv.
    by apply convertedEntry_primitive, Hsf.
Qed.

(** C9, as stated, fails: [uintptr] is an integer type, and a struct
    whose only field is a [uintptr] is not converted. *)
Lemma primitive_fields_counterexample :
  specifiedTag (TBasic BUintptr) = Some "integer"
  ∧ visible (mkField "P" "" "" (TBasic BUintptr)) = true
  ∧ ToSchema Handle =
      Ret (mkSchema [mkTFS "required" "P" "" []])
        (Some (ErrInconvertibleType (TBasic BUintptr))).
Proof. repeat split. Qed.

(** C9, amended. On a struct all of whose visible fields have a
    declared type among bool, int, int8, int16, int32, int64, uint,
    uint8, uint16, uint32, uint64, float32, float64 and string (the
    primitive types without [uintptr]), [ToSchema] returns a nil error
    and one entry for each visible field, in declaration order: its
    mode is "nullable" when the second comma-separated component of the
    json annotation is [omitempty] and "required" otherwise, its name is
    the first component of a non-empty annotation and the declared name
    otherwise, its type is "boolean", "integer", "float" or "string" as
    the declared type is, and it has no children. *)
Theorem ToSchema_primitive_fields id fs :
  Forall (λ sf, visible sf = true → is_Some (convertedTag (FType sf))) fs →
  ToSchema (TStruct id fs) =
    Ret (mkSchema
           (map (λ sf, mkTFS (annotatedMode sf) (annotatedName sf)
                         (default "" (convertedTag (FType sf))) [])
              (List.filter visible fs))) None.
Proof.
  intros HF. simpl. by rewrite (loop_converted _ _ 0 []) by (done || simpl; lia).
Qed.

Lemma ToSchema_primitive_fields_witness :
  ToSchema Flat =
    Ret (mkSchema
           [mkTFS "required" "A" "boolean" [];
            mkTFS "nullable" "c" "float" [];
            mkTFS "nullable" "" "string" []]) None.
Proof.
  apply (ToSchema_primitive_fields (named "Flat")
           [mkField "A" "" "" (TBasic BBool);
            mkField "b" "main" "" (TBasic BFloat64);
            mkField "C" "" "c,omitempty,string" (TBasic BFloat32);
            mkField "D" "" "-" (TBasic BUint16);
            mkField "E" "" ",omitempty" string_]).
  repeat (constructor; [intros _; eexists; reflexivity|]).
  constructor.
Defined.

(** ** Pointers to primitives *)

Lemma loop_congr rec pre sf sf' post i acc :
  (∀ j l, body rec j sf l = body rec j sf' l) →
  loop rec (pre ++ sf :: post) i acc = loop rec (pre ++ sf' :: post) i acc.
Proof.
  intros Hb. rewrite !loop_app.
  destruct (loop rec pre i acc) as [schema [err|]|p]; try done.
  simpl. by rewrite Hb.
Qed.



(** ** Date and time fields *)

(** C1, as stated, fails: a [time.Time] field without [omitempty] is
    given the mode "nullable", not the "required" that its annotation
    yields. *)
Lemma timestamp_mode_counterexample :
  visible (mkField "At" "" "" Time) = true
  ∧ ConvertibleToTime (pointerGuard Time) = true
  ∧ annotatedMode (mkField "At" "" "" Time) = "required"
  ∧ ToSchema Event =
      Ret (mkSchema [mkTFS "nullable" "At" "timestamp" []]) None
  ∧ bigquery.Mode (mkTFS "nullable" "At" "timestamp" []) ≠
      annotatedMode (mkField "At" "" "" Time).
Proof. repeat split; discriminate. Qed.

(** C1, amended. Whenever [ToSchema] returns on a struct with a visible
    field whose pointer-unwrapped type is convertible to [time.Time]
    (and is not the opaque key type), the entry at the place of that
    field can only be the one with the field's name, type "timestamp",
    no children and mode "nullable", whatever the annotation says about
    [omitempty]; when the error is nil that entry is there. *)
Theorem ToSchema_timestamp_nullable id pre sf post schema err :
  visible sf = true →
  isKey (pointerGuard (FType sf)) = false →
  ConvertibleToTime (pointerGuard (FType sf)) = true →
  ToSchema (TStruct id (pre ++ sf :: post)) = Ret schema err →
  (∀ e, SFields schema !! length (List.filter visible pre) = Some e →
        e = mkTFS "nullable" (annotatedName sf) "timestamp" [])
  ∧ (err = None →
     SFields schema !! length (List.filter visible pre) =
       Some (mkTFS "nullable" (annotatedName sf) "timestamp" [])).
Proof.
  intros Hvis Hk Hc H. destruct schema as [out]. simpl in *.
  apply loop_at in H as [Hany Hok]; [|done].
  pose proof (classify_timestamp ToSchema sf Hvis Hk Hc) as Hcl.
  split.
  - intros e He. apply Hany in He. unfold leaves in He. by rewrite Hcl in He.
  - intros Hnil. destruct (Hok Hnil) as (e & He & Hent & _).
    unfold entryOf in Hent. rewrite Hcl in Hent. congruence.
Qed.

Lemma ToSchema_timestamp_nullable_witness :
  ToSchema Visit =
    Ret (mkSchema
           [mkTFS "required" "id" "integer" [];
            mkTFS "nullable" "at" "timestamp" [];
            mkTFS "nullable" "seen" "timestamp" []]) None
  ∧ [mkTFS "required" "id" "integer" [];
     mkTFS "nullable" "at" "timestamp" [];
     mkTFS "nullable" "seen" "timestamp" []] !! 2 =
      Some (mkTFS "nullable" "seen" "timestamp" []).
Proof.
  split; [reflexivity|].
  refine (proj2 (ToSchema_timestamp_nullable (named "Visit")
           [mkField "ID" "" "id" int;
            mkField "secret" "main" "" string_;
            mkField "At" "" "at,omitempty" (TPtr Time)]
           (mkField "Seen" "" "seen" Time) []
           (mkSchema
              [mkTFS "required" "id" "integer" [];
               mkTFS "nullable" "at" "timestamp" [];
               mkTFS "nullable" "seen" "timestamp" []])
           None _ _ _ _) _); reflexivity.
Defined.

(** ** Arrays and slices of primitives *)




(** ** Nested structs *)




(** ** Arrays of arrays *)

Lemma ToSchema_length id fs schema :
  ToSchema (TStruct id fs) = Ret schema None →
  length (SFields schema) = length (List.filter visible fs).
Proof.
  destruct schema as [out]. simpl. intros H.
  apply loop_ok in H as (new & -> & HF); [|simpl; lia].
  simpl. symmetry. by eapply Forall2_length.
Qed.

(** C6, as stated, fails: a field that cannot be converted and is
    declared before a slice of slices ends the conversion with its own
    error. *)
Lemma array_of_arrays_counterexample :
  visible (mkField "Grid" "" "" (TSlice (TSlice int))) = true
  ∧ ToSchema AttrsThenGrid =
      Ret (mkSchema [mkTFS "required" "Attrs" "" []])
        (Some (ErrInconvertibleType (TMap string_ int)))
  ∧ ErrInconvertibleType (TMap string_ int) ≠ ErrArrayOfArray.
Proof. repeat split. discriminate. Qed.

(** C6, amended. On a struct with a visible field declared as an array
    or slice whose pointer-unwrapped element type is neither primitive
    nor a struct, [ToSchema] returns [ErrArrayOfArray] whatever that
    element type is and whatever is declared after the field, provided
    the fields declared before it convert with a nil error; the schema
    returned holds their entries and the unfinished entry of the
    field. *)
Theorem ToSchema_array_of_arrays id id' pre sf post before :
  visible sf = true →
  isArrayOrSlice (FType sf) = true →
  primitive (pointerGuard (Elem (FType sf))) = false →
  KindOf (pointerGuard (Elem (FType sf))) ≠ Struct →
  ToSchema (TStruct id' pre) = Ret before None →
  ToSchema (TStruct id (pre ++ sf :: post)) =
    Ret (mkSchema
           (SFields before ++ [mkTFS "repeated" (annotatedName sf) "" []]))
      (Some ErrArrayOfArray).
Proof.
  intros Hvis Ha Hp Hs Hpre.
  pose proof (ToSchema_length _ _ _ Hpre) as Hlen.
  pose proof (filter_visible_length pre) as Hle.
  simpl in *. rewrite loop_app, Hpre. simpl.
  rewrite body_classify by lia.
  by rewrite (classify_array_of_arrays ToSchema sf Hvis Ha Hp Hs).
Qed.

Lemma ToSchema_array_of_arrays_witness :
  ToSchema NameGridAttrs =
    Ret (mkSchema
           [mkTFS "required" "Name" "string" [];
            mkTFS "repeated" "Grid" "" []])
      (Some ErrArrayOfArray).
Proof.
  refine (ToSchema_array_of_arrays (named "NameGridAttrs") unnamed
            [mkField "Name" "" "" string_]
            (mkField "Grid" "" "" (TSlice (TSlice int)))
            [mkField "Attrs" "" "" (TMap string_ int)]
            (mkSchema [mkTFS "required" "Name" "string" []])
            _ _ _ _ _); (reflexivity || discriminate).
Defined.

(** ** The index of the array branch *)

(** C10 fails on the code.  [struct { hidden int; Tags []string }]: the
    unexported field is skipped, the entry of [Tags] is appended at
    position 0, and [schema.Fields[i].Type = t] runs with [i = 1] on a
    list of length 1. *)
Theorem ToSchema_index_out_of_range :
  ToSchema HiddenThenTags = Panic (IndexOutOfRange 1 1).
Proof. reflexivity. Qed.

Lemma filter_visible_length_lt fs :
  Exists (λ sf, visible sf = false) fs →
  length (List.filter visible fs) < length fs.
Proof.
  induction 1 as [sf fs Hsf|sf fs _ IH]; simpl.
  - rewrite Hsf. pose proof (filter_visible_length fs). lia.
  - destruct (visible sf); simpl; lia.
Qed.

(** The same on every struct: once a field was skipped, a visible array
    or slice of primitives that the loop reaches faults at its index
    expression. *)
Lemma ToSchema_index_fault id id' pre sf post before :
  Exists (λ sf', visible sf' = false) pre →
  visible sf = true →
  isArrayOrSlice (FType sf) = true →
  primitive (pointerGuard (Elem (FType sf))) = true →
  ToSchema (TStruct id' pre) = Ret before None →
  ToSchema (TStruct id (pre ++ sf :: post)) =
    Panic (IndexOutOfRange (length pre) (S (length (SFields before)))).
Proof.
  intros Hskip Hvis Ha Hp Hpre.
  pose proof (ToSchema_length _ _ _ Hpre) as Hlen.
  pose proof (filter_visible_length_lt pre Hskip) as Hlt.
  simpl in *. rewrite loop_app, Hpre. simpl.
  rewrite body_classify by lia.
  rewrite (classify_repeated_primitive ToSchema sf Hvis Ha Hp).
  by rewrite bool_decide_false by lia.
Qed.

(** Without skipped fields the index of the loop is the position of the
    last entry, and the index expression is in range. *)
Lemma ToSchema_all_visible_no_fault id fs :
  Forall (λ sf, visible sf = true) fs →
  Forall (λ sf, ∀ p, classify ToSchema sf ≠ VFault p) fs →
  ∃ schema err, ToSchema (TStruct id fs) = Ret schema err.
Proof.
  simpl. intros Hvis Hnf.
  enough (∀ i acc, length acc = i →
            ∃ schema err, loop ToSchema fs i acc = Ret schema err) by eauto.
  induction fs as [|sf fs IH]; intros i acc Hlen; simpl; [eauto|].
  apply Forall_cons in Hvis as [Hv Hvis].
  apply Forall_cons in Hnf as [Hn Hnf].
  rewrite body_classify by lia.
  destruct (classify ToSchema sf) as [|e|e|e err|p] eqn:Hc.
  - rewrite (visible_classify ToSchema), Hc in Hv. done.
  - apply IH; [done|done|]. rewrite length_app. simpl. lia.
  - rewrite bool_decide_true by done.
    apply IH; [done|done|]. rewrite length_app. simpl. lia.
  - eauto.
  - by destruct (Hn p).
Qed.

(** ** Children and records *)

(** C5, as stated, fails: a nested struct without visible fields is a
    record without children. *)
Lemma children_iff_record_counterexample :
  ToSchema Hollow =
    Ret (mkSchema [mkTFS "nullable" "Empty" "record" []]) None
  ∧ forallb childrenIffRecord [mkTFS "nullable" "Empty" "record" []] = false
  ∧ bigquery.Type_ (mkTFS "nullable" "Empty" "record" []) = "record"
  ∧ bigquery.Fields (mkTFS "nullable" "Empty" "record" []) = [].
Proof. repeat split. Qed.

Lemma size_pointerGuard t : size (pointerGuard t) ≤ size t.
Proof. destruct t; simpl; lia. Qed.

Lemma size_Elem t : size (Elem t) ≤ size t.
Proof. destruct t; simpl; lia. Qed.

Lemma size_field id fs sf : sf ∈ fs → size (FType sf) < size (TStruct id fs).
Proof.
  intros Hin. simpl. apply Nat.lt_succ_r.
  induction Hin as [sf fs|sf sf' fs _ IH]; simpl.
  - destruct sf. simpl. lia.
  - lia.
Qed.

(** Where the children of an entry come from. *)
Lemma structConversion_children rec v t fields :
  structConversion rec v = inr (t, fields, None) →
  fields = [] ∨ (t = "record" ∧ ∃ sub, rec v = Ret sub None ∧ fields = SFields sub).
Proof.
  unfold structConversion.
  destruct (String.eqb (TypeName v) "Key" && _); [intros [= <- <-]; by left|].
  destruct (ConvertibleToTime v); [intros [= <- <-]; by left|].
  destruct (rec v) as [sub err|p] eqn:Hr; [|done].
  intros [= <- <- ->]. right. eauto.
Qed.

Lemma leaves_children rec sf e :
  leaves rec sf e →
  bigquery.Fields e = []
  ∨ (bigquery.Type_ e = "record"
     ∧ ∃ v sub, size v ≤ size (FType sf)
                ∧ rec v = Ret sub None
                ∧ bigquery.Fields e = SFields sub).
Proof.
  unfold leaves, classify.
  destruct (negb (exported sf)); [done|].
  destruct (tagNameMode sf) as [[name mode]|]; [|done].
  destruct (simpleType (KindOf (pointerGuard (FType sf)))) as [t s].
  destruct s; [intros ->; by left|].
  pose proof (size_pointerGuard (FType sf)) as Hs1.
  pose proof (size_Elem (pointerGuard (FType sf))) as Hs2.
  pose proof (size_pointerGuard (Elem (pointerGuard (FType sf)))) as Hs3.
  assert (Harr :
    match
      (let '(t', isSimple') :=
         simpleType (KindOf (pointerGuard (Elem (pointerGuard (FType sf))))) in
       if isSimple' then VIndexed (mkTFS "repeated" name t' [])
       else if negb (bool_decide
                 (KindOf (pointerGuard (Elem (pointerGuard (FType sf)))) = Struct))
       then VAbort (mkTFS "repeated" name t []) ErrArrayOfArray
       else
         match structConversion rec
                 (pointerGuard (Elem (pointerGuard (FType sf)))) with
         | inl pn => VFault pn
         | inr (_, _, Some err) => VAbort (mkTFS "repeated" name t []) err
         | inr (t', fields, None) => VIndexed (mkTFS "repeated" name t' fields)
         end)
    with
    | VEntry e' | VIndexed e' | VAbort e' _ => e = e'
    | _ => False
    end →
    bigquery.Fields e = []
    ∨ (bigquery.Type_ e = "record"
       ∧ ∃ v sub, size v ≤ size (FType sf)
                  ∧ rec v = Ret sub None
                  ∧ bigquery.Fields e = SFields sub)).
  { destruct (simpleType _) as [t' s']. destruct s'; [intros ->; by left|].
    destruct (negb _); [intros ->; by left|].
    destruct (structConversion rec _) as [pn|[[t'' fields] [err|]]] eqn:Hsc;
      [done|intros ->; by left|].
    intros ->. simpl.
    apply structConversion_children in Hsc as [->|(-> & sub & Hr & ->)];
      [by left|].
    right. split; [done|]. eexists _, sub. split_and!; [|exact Hr|done]. lia. }
  destruct (KindOf (pointerGuard (FType sf)));
    try (intros ->; by left); try exact Harr.
  clear Harr.
  destruct (structConversion rec _) as [pn|[[t'' fields] [err|]]] eqn:Hsc;
    [done|intros ->; by left|].
  intros ->. simpl.
  apply structConversion_children in Hsc as [->|(-> & sub & Hr & ->)];
    [by left|].
  right. split; [done|]. eexists _, sub. split_and!; [|exact Hr|done]. lia.
Qed.

Lemma childrenOnlyInRecord_unfold e :
  childrenOnlyInRecord e =
    (bool_decide (bigquery.Fields e = [])
     || String.eqb (bigquery.Type_ e) "record")
    && forallb childrenOnlyInRecord (bigquery.Fields e).
Proof. by destruct e. Qed.

Lemma ToSchema_children_any n t schema err :
  size t < n →
  ToSchema t = Ret schema err →
  forallb childrenOnlyInRecord (SFields schema) = true.
Proof.
  revert t schema err. induction n as [|n IH]; intros t schema err Hn H; [lia|].
  destruct t as [b| | | | | | | |id fs]; try (by injection H as <- _).
  destruct schema as [out]. simpl in H |- *.
  apply loop_any in H as (new & -> & _ & HF); [|simpl; lia].
  simpl. apply List.forallb_forall. intros e He%list_elem_of_In.
  rewrite Forall_forall in HF. destruct (HF e He) as (sf & Hin & Hl).
  rewrite childrenOnlyInRecord_unfold.
  apply leaves_children in Hl as [->|(-> & v & sub & Hv & Hr & ->)]; [done|].
  rewrite orb_true_r. simpl.
  apply (IH v sub None); [|done].
  pose proof (size_field id fs sf Hin). lia.
Qed.

(** One direction, on the schema alone: in every schema that
    [ToSchema] returns with a nil error, an entry has children only if
    its type is "record", at every nesting level. *)
Lemma ToSchema_children_only_in_records t schema :
  ToSchema t = Ret schema None →
  forallb childrenOnlyInRecord (SFields schema) = true.
Proof.
  intros H.
  apply (ToSchema_children_any (S (size t)) t schema None); [lia|done].
Qed.

Lemma all2_Forall2 {A B} (f : A → B → bool) l k :
  Forall2 (λ x y, f x y = true) l k → all2 f l k = true.
Proof.
  induction 1 as [|x y l k Hxy _ IH]; simpl; [done|]. by rewrite Hxy, IH.
Qed.

Lemma Forall2_elem_of_l {A B} (R : A → B → Prop) l k :
  Forall2 R l k → Forall2 (λ x y, x ∈ l ∧ R x y) l k.
Proof.
  induction 1 as [|x y l k Hxy _ IH]; constructor.
  - split; [left|done].
  - eapply Forall2_impl; [exact IH|]. intros x' y' [Hin HR].
    split; [by right|done].
Qed.

Lemma isArrayOrSlice_KindOf v :
  isArrayOrSlice v = true ↔ KindOf v = Array ∨ KindOf v = Slice.
Proof.
  destruct v as [b| | | | | | | |]; simpl; split; try done; auto;
    try (intros [?|?]; done).
  intros [?|?]; by destruct b.
Qed.

(** An entry that the conversion goes on with is no record and has no
    children, or it is a record whose children are what the nested call
    returns, with a nil error, on the struct that the entry describes. *)
Lemma entryOf_described rec sf e :
  entryOf rec sf = Some e →
  (String.eqb (bigquery.Type_ e) "record" = false ∧ bigquery.Fields e = [])
  ∨ (bigquery.Type_ e = "record"
     ∧ KindOf (describedType sf) = Struct
     ∧ size (describedType sf) ≤ size (FType sf)
     ∧ ∃ sub, rec (describedType sf) = Ret sub None
              ∧ bigquery.Fields e = SFields sub).
Proof.
  assert (Hsc : ∀ v t children,
            structConversion rec v = inr (t, children, None) →
            (String.eqb t "record" = false ∧ children = [])
            ∨ (t = "record"
               ∧ ∃ sub, rec v = Ret sub None ∧ children = SFields sub)).
  { intros v t children. unfold structConversion.
    destruct (String.eqb (TypeName v) "Key" && _); [intros [= <- <-]; by left|].
    destruct (ConvertibleToTime v); [intros [= <- <-]; by left|].
    destruct (rec v) as [sub err|p]; [|done].
    intros [= <- <- ->]. right. eauto. }
  pose proof (size_pointerGuard (FType sf)) as Hs1.
  pose proof (size_Elem (pointerGuard (FType sf))) as Hs2.
  pose proof (size_pointerGuard (Elem (pointerGuard (FType sf)))) as Hs3.
  unfold entryOf, classify, describedType.
  destruct (negb (exported sf)); [done|].
  destruct (tagNameMode sf) as [[name mode]|]; [|done].
  destruct (simpleType (KindOf (pointerGuard (FType sf)))) as [t s] eqn:Est.
  destruct s.
  { intros [= <-]. left. simpl. split; [|done].
    destruct (KindOf (pointerGuard (FType sf))); simpl in Est;
      by simplify_eq. }
  destruct (isArrayOrSlice (pointerGuard (FType sf))) eqn:Ha.
  - apply isArrayOrSlice_KindOf in Ha.
    assert (Harr :
      match
        (let '(t', isSimple') :=
           simpleType (KindOf (pointerGuard (Elem (pointerGuard (FType sf))))) in
         if isSimple' then VIndexed (mkTFS "repeated" name t' [])
         else if negb (bool_decide
                   (KindOf (pointerGuard (Elem (pointerGuard (FType sf)))) = Struct))
         then VAbort (mkTFS "repeated" name t []) ErrArrayOfArray
         else
           match structConversion rec
                   (pointerGuard (Elem (pointerGuard (FType sf)))) with
           | inl pn => VFault pn
           | inr (_, _, Some err) => VAbort (mkTFS "repeated" name t []) err
           | inr (t', fields, None) =>
               VIndexed (mkTFS "repeated" name t' fields)
           end)
      with
      | VEntry e' | VIndexed e' => Some e'
      | _ => None
      end = Some e →
      (String.eqb (bigquery.Type_ e) "record" = false ∧ bigquery.Fields e = [])
      ∨ (bigquery.Type_ e = "record"
         ∧ KindOf (pointerGuard (Elem (pointerGuard (FType sf)))) = Struct
         ∧ size (pointerGuard (Elem (pointerGuard (FType sf))))
           ≤ size (FType sf)
         ∧ ∃ sub, rec (pointerGuard (Elem (pointerGuard (FType sf)))) =
                    Ret sub None
                  ∧ bigquery.Fields e = SFields sub)).
    { destruct (simpleType (KindOf (pointerGuard (Elem _))))
        as [t' s'] eqn:Est'.
      destruct s'; simpl.
      { intros [= <-]. left. simpl. split; [|done].
        destruct (KindOf (pointerGuard (Elem _))); simpl in Est';
          by simplify_eq. }
      case_bool_decide as Hk; simpl; [|done].
      destruct (structConversion rec (pointerGuard (Elem _)))
        as [pn|[[t'' children] [err'|]]] eqn:Hs; simpl; try done.
      intros [= <-]. simpl.
      apply Hsc in Hs as [[Hnr ->]|(-> & sub & Hr & ->)]; [by left|].
      right. split_and!; [done|done|lia|eauto]. }
    by destruct Ha as [-> | ->].
  - destruct (KindOf (pointerGuard (FType sf))) eqn:Hk; try done.
    + apply not_true_iff_false in Ha. destruct Ha.
      apply isArrayOrSlice_KindOf. by left.
    + apply not_true_iff_false in Ha. destruct Ha.
      apply isArrayOrSlice_KindOf. by right.
    + destruct (structConversion rec (pointerGuard (FType sf)))
        as [pn|[[t'' children] [err'|]]] eqn:Hs; simpl; try done.
      intros [= <-]. simpl.
      apply Hsc in Hs as [[Hnr ->]|(-> & sub & Hr & ->)]; [by left|].
      right. split_and!; [done|done|lia|eauto].
Qed.

Lemma childrenAsDeclared_unfold sf e :
  childrenAsDeclared sf e =
    if String.eqb (bigquery.Type_ e) "record"
    then Bool.eqb (bool_decide (bigquery.Fields e = []))
           (bool_decide
              (length (List.filter visible (fieldsOf (describedType sf))) = 0))
         && all2 childrenAsDeclared
              (List.filter visible (fieldsOf (describedType sf)))
              (bigquery.Fields e)
    else bool_decide (bigquery.Fields e = []).
Proof. by destruct e. Qed.

Lemma ToSchema_children_as_declared_below n t schema :
  size t < n →
  ToSchema t = Ret schema None →
  all2 childrenAsDeclared (List.filter visible (fieldsOf t)) (SFields schema)
    = true.
Proof.
  revert t schema. induction n as [|n IH]; intros t schema Hn H; [lia|].
  destruct t as [b| | | | | | | |id fs]; try done.
  destruct schema as [out]. simpl in H |- *.
  apply loop_ok in H as (new & -> & HF); [|simpl; lia].
  simpl. apply all2_Forall2.
  apply Forall2_elem_of_l in HF.
  eapply Forall2_impl; [exact HF|]. clear HF.
  intros sf e [Hin Hent]. simpl in Hent.
  apply list_elem_of_In, List.filter_In in Hin as [Hin%list_elem_of_In _].
  pose proof (size_field id fs sf Hin) as Hsz.
  rewrite childrenAsDeclared_unfold.
  apply entryOf_described in Hent
    as [[-> ->]|(-> & Hk & Hsize & sub & Hr & ->)]; [done|].
  simpl.
  destruct (describedType sf) as [b'| | | | | | | |id' fs'] eqn:Hd;
    try done.
  pose proof (ToSchema_length _ _ _ Hr) as Hlen.
  apply andb_true_intro. split.
  - simpl. rewrite <-Hlen.
    destruct (SFields sub); simpl; repeat case_bool_decide; done.
  - apply (IH (TStruct id' fs') sub); [lia|done].
Qed.

(** C5, amended. In every schema that [ToSchema] returns with a nil
    error, the children of an entry are non-empty if and only if its
    type is "record" and the struct that the entry describes (the
    pointer-unwrapped type of the field, or of the elements of an array
    or slice field) has at least one visible field; an entry of another
    type has no children.  This holds at every nesting level, the
    children being checked against the visible fields of that struct. *)
Theorem ToSchema_children_iff_record_with_fields t schema :
  ToSchema t = Ret schema None →
  all2 childrenAsDeclared (List.filter visible (fieldsOf t)) (SFields schema)
    = true.
Proof.
  intros H.
  apply (ToSchema_children_as_declared_below (S (size t)) t); [lia|done].
Qed.

Lemma ToSchema_children_iff_record_with_fields_witness :
  all2 childrenAsDeclared
    [mkField "Name" "" "" string_;
     mkField "Addr" "" "addr,omitempty" (TPtr Address)]
    [mkTFS "required" "Name" "string" [];
     mkTFS "nullable" "addr" "record"
       [mkTFS "required" "city" "string" [];
        mkTFS "repeated" "Zip" "integer" []]] = true.
Proof.
  apply (ToSchema_children_iff_record_with_fields Customer
           (mkSchema
              [mkTFS "required" "Name" "string" [];
               mkTFS "nullable" "addr" "record"
                 [mkTFS "required" "city" "string" [];
                  mkTFS "repeated" "Zip" "integer" []]])).
  reflexivity.
Defined.

(** * Further properties of the code *)

(** ** More verdicts *)

Section MoreVerdicts.

Variable rec : rtype → result.

Lemma structConversion_plain v :
  plainStruct v = true →
  structConversion rec v =
    match rec v with
    | Ret sub err => inr ("record", SFields sub, err)
    | Panic p => inl p
    end.
Proof.
  unfold plainStruct, structConversion, isKey.
  destruct (String.eqb (TypeName v) "Key" && _);
    [by rewrite andb_false_r|].
  destruct (ConvertibleToTime v); [by rewrite andb_false_r|done].
Qed.

Lemma structConversion_time v :
  isKey v = false → ConvertibleToTime v = true →
  structConversion rec v = inr ("timestamp", [], None).
Proof.
  unfold structConversion, isKey. by intros -> ->.
Qed.

Lemma structConversion_key v :
  isKey v = true → structConversion rec v = inr ("string", [], None).
Proof. unfold structConversion, isKey. by intros ->. Qed.

Lemma isKey_struct v : isKey v = true → KindOf v = Struct.
Proof. by destruct v. Qed.

Lemma ConvertibleToTime_struct v : ConvertibleToTime v = true → KindOf v = Struct.
Proof. by destruct v. Qed.

Lemma plainStruct_struct v : plainStruct v = true → KindOf v = Struct.
Proof.
  unfold plainStruct. destruct (bool_decide (KindOf v = Struct)) eqn:E; [|done].
  by apply bool_decide_eq_true in E.
Qed.

(** A visible field of struct kind. *)
Lemma classify_struct sf :
  visible sf = true →
  KindOf (pointerGuard (FType sf)) = Struct →
  classify rec sf =
    match structConversion rec (pointerGuard (FType sf)) with
    | inl pn => VFault pn
    | inr (_, _, Some err) =>
        VAbort (mkTFS "nullable" (annotatedName sf) "" []) err
    | inr (t, fields, None) =>
        VEntry (mkTFS (if String.eqb t "string" then annotatedMode sf
                       else "nullable") (annotatedName sf) t fields)
    end.
Proof.
  intros [Hex Htag]%visible_tagNameMode Hk.
  unfold classify. rewrite Hex, Htag. simpl. by rewrite Hk.
Qed.

(** A visible array or slice field whose element is of struct kind. *)
Lemma classify_repeated_struct sf :
  visible sf = true →
  isArrayOrSlice (pointerGuard (FType sf)) = true →
  KindOf (pointerGuard (Elem (pointerGuard (FType sf)))) = Struct →
  classify rec sf =
    match structConversion rec
            (pointerGuard (Elem (pointerGuard (FType sf)))) with
    | inl pn => VFault pn
    | inr (_, _, Some err) =>
        VAbort (mkTFS "repeated" (annotatedName sf) "" []) err
    | inr (t, fields, None) =>
        VIndexed (mkTFS "repeated" (annotatedName sf) t fields)
    end.
Proof.
  intros [Hex Htag]%visible_tagNameMode [_ Hk]%isArrayOrSlice_kind Hs.
  unfold classify. rewrite Hex, Htag. simpl. rewrite Hs. simpl.
  by destruct Hk as [-> | ->].
Qed.

(** A visible field that is neither primitive, nor a struct, nor an
    array or slice. *)
Lemma classify_inconvertible sf :
  visible sf = true →
  primitive (pointerGuard (FType sf)) = false →
  KindOf (pointerGuard (FType sf)) ≠ Struct →
  isArrayOrSlice (pointerGuard (FType sf)) = false →
  classify rec sf =
    VAbort (mkTFS (annotatedMode sf) (annotatedName sf) "" [])
      (ErrInconvertibleType (FType sf)).
Proof.
  intros [Hex Htag]%visible_tagNameMode Hp Hs Ha.
  unfold classify. rewrite Hex, Htag. simpl.
  unfold primitive in Hp.
  destruct (pointerGuard (FType sf)) as [b| | | | | | | |]; try done.
  by destruct b.
Qed.

Lemma classify_indexed sf e :
  classify rec sf = VIndexed e → repeatedField sf = true.
Proof.
  unfold repeatedField. rewrite (visible_classify rec sf).
  intros Hc. rewrite Hc. simpl. revert Hc. unfold classify.
  destruct (negb (exported sf)); [done|].
  destruct (tagNameMode sf) as [[name mode]|]; [|done].
  destruct (pointerGuard (FType sf)) as [b| | | | | | | |]; simpl; try done.
  - by destruct b.
  - by destruct (structConversion rec _) as [?|[[? ?] [?|]]].
Qed.

Lemma annotatedMode_cases sf :
  annotatedMode sf = "nullable" ∨ annotatedMode sf = "required".
Proof. unfold annotatedMode. case_bool_decide; auto. Qed.

End MoreVerdicts.

Lemma ToSchema_prefix_length id pre before :
  ToSchema (TStruct id pre) = Ret before None →
  length (SFields before) ≤ length pre.
Proof.
  intros H%ToSchema_length. rewrite H. apply filter_visible_length.
Qed.

(** ** The field after a prefix that converts *)

Lemma ToSchema_at_field id id' pre sf post before :
  ToSchema (TStruct id' pre) = Ret before None →
  ToSchema (TStruct id (pre ++ sf :: post)) =
    match classify ToSchema sf with
    | VSkip => loop ToSchema post (S (length pre)) (SFields before)
    | VEntry e => loop ToSchema post (S (length pre)) (SFields before ++ [e])
    | VIndexed e =>
        if bool_decide (length pre = length (SFields before))
        then loop ToSchema post (S (length pre)) (SFields before ++ [e])
        else Panic (IndexOutOfRange (length pre) (S (length (SFields before))))
    | VAbort e err => Ret (mkSchema (SFields before ++ [e])) (Some err)
    | VFault p => Panic p
    end.
Proof.
  intros Hpre. pose proof (ToSchema_prefix_length _ _ _ Hpre) as Hle.
  simpl in *. rewrite loop_app, Hpre. simpl.
  rewrite body_classify by done.
  destruct (classify ToSchema sf); try done. by case_bool_decide.
Qed.

(** ** Types that cannot be converted *)

(** X1. A visible field whose pointer-unwrapped type is neither
    primitive, nor a struct, nor an array or slice (a map, a channel, a
    function, an interface, a pointer to a pointer, a complex number)
    ends the conversion with [ErrInconvertibleType] for the declared
    type of the field, provided the fields declared before it convert
    with a nil error; the schema returned holds their entries and an
    entry for the field with an empty type. *)
Theorem ToSchema_inconvertible_type id id' pre sf post before :
  visible sf = true →
  primitive (pointerGuard (FType sf)) = false →
  KindOf (pointerGuard (FType sf)) ≠ Struct →
  isArrayOrSlice (pointerGuard (FType sf)) = false →
  ToSchema (TStruct id' pre) = Ret before None →
  ToSchema (TStruct id (pre ++ sf :: post)) =
    Ret (mkSchema
           (SFields before
              ++ [mkTFS (annotatedMode sf) (annotatedName sf) "" []]))
      (Some (ErrInconvertibleType (FType sf))).
Proof.
  intros Hvis Hp Hs Ha Hpre.
  rewrite (ToSchema_at_field id id' pre sf post before Hpre).
  by rewrite (classify_inconvertible ToSchema sf Hvis Hp Hs Ha).
Qed.

Lemma ToSchema_inconvertible_type_witness :
  ToSchema Indirect =
    Ret (mkSchema
           [mkTFS "required" "Name" "string" [];
            mkTFS "required" "Deep" "" []])
      (Some (ErrInconvertibleType (TPtr (TPtr int)))).
Proof.
  refine (ToSchema_inconvertible_type (named "Indirect") unnamed
            [mkField "Name" "" "" string_]
            (mkField "Deep" "" "" (TPtr (TPtr int)))
            [mkField "Tags" "" "" (TSlice string_)]
            (mkSchema [mkTFS "required" "Name" "string" []])
            _ _ _ _ _); (reflexivity || discriminate).
Defined.

(** ** Arrays and slices of structs *)

(** X2. When [ToSchema] returns a nil error, a visible field whose
    pointer-unwrapped type is an array or slice of (pointers to) a
    struct that is neither the key type nor convertible to [time.Time]
    has the entry with its name, mode "repeated", type "record" and the
    fields of the element struct as children. *)
Theorem ToSchema_repeated_record id pre sf post schema :
  visible sf = true →
  isArrayOrSlice (pointerGuard (FType sf)) = true →
  plainStruct (pointerGuard (Elem (pointerGuard (FType sf)))) = true →
  ToSchema (TStruct id (pre ++ sf :: post)) = Ret schema None →
  ∃ sub,
    ToSchema (pointerGuard (Elem (pointerGuard (FType sf)))) = Ret sub None
    ∧ SFields schema !! length (List.filter visible pre) =
        Some (mkTFS "repeated" (annotatedName sf) "record" (SFields sub)).
Proof.
  intros Hvis Ha Hp H. destruct schema as [out]. simpl in *.
  apply loop_at in H as [_ Hok]; [|done].
  destruct (Hok eq_refl) as (e & He & Hent & _).
  unfold entryOf in Hent.
  rewrite (classify_repeated_struct ToSchema sf Hvis Ha) in Hent
    by by apply plainStruct_struct.
  rewrite structConversion_plain in Hent by done.
  destruct (ToSchema (pointerGuard (Elem (pointerGuard (FType sf)))))
    as [sub [err|]|p]; try done.
  exists sub. split; [done|congruence].
Qed.

Lemma ToSchema_repeated_record_witness :
  ∃ sub,
    ToSchema Address = Ret sub None
    ∧ [mkTFS "required" "ID" "integer" [];
       mkTFS "repeated" "lines" "record"
         [mkTFS "required" "city" "string" [];
          mkTFS "repeated" "Zip" "integer" []];
       mkTFS "repeated" "Stamps" "timestamp" []] !! 1 =
        Some (mkTFS "repeated" "lines" "record" (SFields sub)).
Proof.
  refine (ToSchema_repeated_record (named "Order")
            [mkField "ID" "" "" int]
            (mkField "Lines" "" "lines,omitempty" (TSlice (TPtr Address)))
            [mkField "Stamps" "" "" (TArray 2 Time);
             mkField "note" "main" "" string_]
            (mkSchema
               [mkTFS "required" "ID" "integer" [];
                mkTFS "repeated" "lines" "record"
                  [mkTFS "required" "city" "string" [];
                   mkTFS "repeated" "Zip" "integer" []];
                mkTFS "repeated" "Stamps" "timestamp" []])
            _ _ _ _); reflexivity.
Defined.

(** X3. When [ToSchema] returns a nil error, a visible field whose
    pointer-unwrapped type is an array or slice of (pointers to) a type
    convertible to [time.Time] has the entry with its name, mode
    "repeated", type "timestamp" and no children. *)
Theorem ToSchema_repeated_timestamp id pre sf post schema :
  visible sf = true →
  isArrayOrSlice (pointerGuard (FType sf)) = true →
  isKey (pointerGuard (Elem (pointerGuard (FType sf)))) = false →
  ConvertibleToTime (pointerGuard (Elem (pointerGuard (FType sf)))) = true →
  ToSchema (TStruct id (pre ++ sf :: post)) = Ret schema None →
  SFields schema !! length (List.filter visible pre) =
    Some (mkTFS "repeated" (annotatedName sf) "timestamp" []).
Proof.
  intros Hvis Ha Hk Hc H. destruct schema as [out]. simpl in *.
  apply loop_at in H as [_ Hok]; [|done].
  destruct (Hok eq_refl) as (e & He & Hent & _).
  unfold entryOf in Hent.
  rewrite (classify_repeated_struct ToSchema sf Hvis Ha) in Hent
    by by apply ConvertibleToTime_struct.
  rewrite structConversion_time in Hent by done.
  congruence.
Qed.

Lemma ToSchema_repeated_timestamp_witness :
  [mkTFS "required" "ID" "integer" [];
   mkTFS "repeated" "lines" "record"
     [mkTFS "required" "city" "string" [];
      mkTFS "repeated" "Zip" "integer" []];
   mkTFS "repeated" "Stamps" "timestamp" []] !! 2 =
    Some (mkTFS "repeated" "Stamps" "timestamp" []).
Proof.
  refine (ToSchema_repeated_timestamp (named "Order")
            [mkField "ID" "" "" int;
             mkField "Lines" "" "lines,omitempty" (TSlice (TPtr Address))]
            (mkField "Stamps" "" "" (TArray 2 Time))
            [mkField "note" "main" "" string_]
            (mkSchema
               [mkTFS "required" "ID" "integer" [];
                mkTFS "repeated" "lines" "record"
                  [mkTFS "required" "city" "string" [];
                   mkTFS "repeated" "Zip" "integer" []];
                mkTFS "repeated" "Stamps" "timestamp" []])
            _ _ _ _ _); reflexivity.
Defined.

(** ** The opaque key type *)

(** X4. When [ToSchema] returns a nil error, a visible field whose
    pointer-unwrapped type is a struct named [Key] of a package whose
    path contains [appengine] has the entry with its name, type
    "string", no children, and the mode of its annotation: "nullable"
    with [omitempty], "required" without.  The fields of the key type
    are not looked at. *)
Theorem ToSchema_key_string id pre sf post schema :
  visible sf = true →
  isKey (pointerGuard (FType sf)) = true →
  ToSchema (TStruct id (pre ++ sf :: post)) = Ret schema None →
  SFields schema !! length (List.filter visible pre) =
    Some (mkTFS (annotatedMode sf) (annotatedName sf) "string" []).
Proof.
  intros Hvis Hk H. destruct schema as [out]. simpl in *.
  apply loop_at in H as [_ Hok]; [|done].
  destruct (Hok eq_refl) as (e & He & Hent & _).
  unfold entryOf in Hent.
  rewrite (classify_struct ToSchema sf Hvis) in Hent by by apply isKey_struct.
  rewrite structConversion_key in Hent by done.
  simpl in Hent. congruence.
Qed.

Lemma ToSchema_key_string_witness :
  ToSchema Owned =
    Ret (mkSchema
           [mkTFS "required" "owner" "string" [];
            mkTFS "nullable" "ref" "string" []]) None
  ∧ [mkTFS "required" "owner" "string" [];
     mkTFS "nullable" "ref" "string" []] !! 0 =
      Some (mkTFS "required" "owner" "string" []).
Proof.
  split; [reflexivity|].
  refine (ToSchema_key_string (named "Owned") []
            (mkField "Owner" "" "owner" (TPtr Key))
            [mkField "Ref" "" "ref,omitempty" Key]
            (mkSchema
               [mkTFS "required" "owner" "string" [];
                mkTFS "nullable" "ref" "string" []])
            _ _ _); reflexivity.
Defined.

(** ** Errors of nested conversions *)

(** X5. When the conversion of a nested struct returns an error, the
    conversion of the struct that has it as a visible field returns
    that same error, provided the fields declared before it convert
    with a nil error; the field is left with mode "nullable", an empty
    type and no children, and the fields declared after it are not
    visited. *)
Theorem ToSchema_nested_error id id' pre sf post before sub err :
  visible sf = true →
  plainStruct (pointerGuard (FType sf)) = true →
  ToSchema (pointerGuard (FType sf)) = Ret sub (Some err) →
  ToSchema (TStruct id' pre) = Ret before None →
  ToSchema (TStruct id (pre ++ sf :: post)) =
    Ret (mkSchema
           (SFields before ++ [mkTFS "nullable" (annotatedName sf) "" []]))
      (Some err).
Proof.
  intros Hvis Hp Hsub Hpre.
  rewrite (ToSchema_at_field id id' pre sf post before Hpre).
  rewrite (classify_record ToSchema sf Hvis Hp). by rewrite Hsub.
Qed.

Lemma ToSchema_nested_error_witness :
  ToSchema NameInnerTags =
    Ret (mkSchema
           [mkTFS "required" "Name" "string" [];
            mkTFS "nullable" "Inner" "" []])
      (Some (ErrInconvertibleType (TMap string_ int))).
Proof.
  refine (ToSchema_nested_error (named "NameInnerTags") unnamed
            [mkField "Name" "" "" string_]
            (mkField "Inner" "" ""
               (TStruct unnamed [mkField "Attrs" "" "" (TMap string_ int)]))
            [mkField "Tags" "" "" (TSlice string_)]
            (mkSchema [mkTFS "required" "Name" "string" []])
            (mkSchema [mkTFS "required" "Attrs" "" []])
            (ErrInconvertibleType (TMap string_ int))
            _ _ _ _); reflexivity.
Defined.

(** X6. When the conversion of the element struct of a visible array or
    slice field returns an error, the conversion returns that same
    error, provided the fields declared before it convert with a nil
    error: the error is returned before the index expression is
    reached, so this holds after skipped fields too.  The field is left
    with mode "repeated", an empty type and no children. *)
Theorem ToSchema_element_error id id' pre sf post before sub err :
  visible sf = true →
  isArrayOrSlice (pointerGuard (FType sf)) = true →
  plainStruct (pointerGuard (Elem (pointerGuard (FType sf)))) = true →
  ToSchema (pointerGuard (Elem (pointerGuard (FType sf)))) =
    Ret sub (Some err) →
  ToSchema (TStruct id' pre) = Ret before None →
  ToSchema (TStruct id (pre ++ sf :: post)) =
    Ret (mkSchema
           (SFields before ++ [mkTFS "repeated" (annotatedName sf) "" []]))
      (Some err).
Proof.
  intros Hvis Ha Hp Hsub Hpre.
  rewrite (ToSchema_at_field id id' pre sf post before Hpre).
  rewrite (classify_repeated_struct ToSchema sf Hvis Ha)
    by by apply plainStruct_struct.
  rewrite structConversion_plain by done. by rewrite Hsub.
Qed.

Lemma ToSchema_element_error_witness :
  ToSchema HiddenThenRows =
    Ret (mkSchema [mkTFS "repeated" "Rows" "" []])
      (Some (ErrInconvertibleType (TMap string_ int))).
Proof.
  refine (ToSchema_element_error (named "HiddenThenRows") unnamed
            [mkField "hidden" "main" "" int]
            (mkField "Rows" "" ""
               (TSlice (TStruct unnamed
                          [mkField "Attrs" "" "" (TMap string_ int)])))
            []
            (mkSchema [])
            (mkSchema [mkTFS "required" "Attrs" "" []])
            (ErrInconvertibleType (TMap string_ int))
            _ _ _ _ _); reflexivity.
Defined.

(** ** What the fields declared later can change *)

(** X7. The first failure decides: when the conversion of a struct
    returns an error or panics, so does, with the same schema and error
    or the same panic, the conversion of every struct that declares
    further fields after the same ones. *)
Theorem ToSchema_first_failure id id' pre post r :
  ToSchema (TStruct id pre) = r →
  (∀ schema, r ≠ Ret schema None) →
  ToSchema (TStruct id' (pre ++ post)) = r.
Proof.
  simpl. intros Hpre Hfail. rewrite loop_app, Hpre.
  destruct r as [schema [err|]|p]; try done. by destruct (Hfail schema).
Qed.

Lemma ToSchema_first_failure_witness :
  ToSchema AttrsThenGrid =
    Ret (mkSchema [mkTFS "required" "Attrs" "" []])
      (Some (ErrInconvertibleType (TMap string_ int))).
Proof.
  refine (ToSchema_first_failure unnamed (named "AttrsThenGrid")
            [mkField "Attrs" "" "" (TMap string_ int)]
            [mkField "Grid" "" "" (TSlice (TSlice int))]
            (Ret (mkSchema [mkTFS "required" "Attrs" "" []])
               (Some (ErrInconvertibleType (TMap string_ int))))
            _ _); [reflexivity|discriminate].
Defined.

(** X8. Entries are final once their field is done: when a struct
    converts with a nil error, whatever the conversion of a struct that
    declares further fields after the same ones returns, with or
    without an error, starts with the same entries. *)
Theorem ToSchema_prefix_kept id id' pre post before schema err :
  ToSchema (TStruct id pre) = Ret before None →
  ToSchema (TStruct id' (pre ++ post)) = Ret schema err →
  SFields before `prefix_of` SFields schema.
Proof.
  intros Hpre H. pose proof (ToSchema_prefix_length _ _ _ Hpre) as Hle.
  simpl in *. rewrite loop_app, Hpre in H. simpl in H.
  destruct schema as [out].
  apply loop_any in H as (new & -> & _); [|lia].
  by exists new.
Qed.

Lemma ToSchema_prefix_kept_witness :
  [mkTFS "required" "Name" "string" []]
    `prefix_of` [mkTFS "required" "Name" "string" [];
                 mkTFS "required" "Deep" "" []].
Proof.
  refine (ToSchema_prefix_kept unnamed (named "Indirect")
            [mkField "Name" "" "" string_]
            [mkField "Deep" "" "" (TPtr (TPtr int));
             mkField "Tags" "" "" (TSlice string_)]
            (mkSchema [mkTFS "required" "Name" "string" []])
            (mkSchema
               [mkTFS "required" "Name" "string" [];
                mkTFS "required" "Deep" "" []])
            (Some (ErrInconvertibleType (TPtr (TPtr int))))
            _ _); reflexivity.
Defined.

Lemma loop_names rec fs i acc out err :
  length acc ≤ i →
  loop rec fs i acc = Ret (mkSchema out) err →
  ∃ new, out = acc ++ new
         ∧ map bigquery.Name new
             `prefix_of` map annotatedName (List.filter visible fs).
Proof.
  revert i acc. induction fs as [|sf fs IH]; intros i acc Hle H; simpl in *.
  - exists []. rewrite app_nil_r. split; [congruence|done].
  - rewrite body_classify in H by done.
    rewrite (visible_classify rec sf).
    assert (Hname : ∀ e, leaves rec sf e → bigquery.Name e = annotatedName sf)
      by apply leaves_name.
    unfold leaves in Hname.
    destruct (classify rec sf) as [|e|e|e err'|p] eqn:Hc.
    + apply IH in H; [done|lia].
    + apply IH in H as (new & -> & Hp); [|rewrite length_app; simpl; lia].
      exists (e :: new). rewrite <-app_assoc. split; [done|].
      simpl. rewrite (Hname e eq_refl). by apply prefix_cons.
    + case_bool_decide; [|done].
      apply IH in H as (new & -> & Hp); [|rewrite length_app; simpl; lia].
      exists (e :: new). rewrite <-app_assoc. split; [done|].
      simpl. rewrite (Hname e eq_refl). by apply prefix_cons.
    + injection H as <- <-. exists [e]. split; [done|].
      simpl. rewrite (Hname e eq_refl). apply prefix_cons, prefix_nil.
    + done.
Qed.

(** X9. Whatever [ToSchema] returns on a struct, with or without an
    error, the names of the entries are the names of the first visible
    fields, in declaration order: no entry is there for a skipped
    field, none is repeated, none is out of place, and at most the last
    one belongs to the field at which the conversion stopped. *)
Theorem ToSchema_names_prefix id fs schema err :
  ToSchema (TStruct id fs) = Ret schema err →
  map bigquery.Name (SFields schema)
    `prefix_of` map annotatedName (List.filter visible fs).
Proof.
  destruct schema as [out]. simpl. intros H.
  by apply loop_names in H as (new & -> & Hp); [|simpl; lia].
Qed.

Lemma ToSchema_names_prefix_witness :
  ["Name"; "Deep"] `prefix_of` ["Name"; "Deep"; "Tags"].
Proof.
  refine (ToSchema_names_prefix (named "Indirect")
            [mkField "Name" "" "" string_;
             mkField "Deep" "" "" (TPtr (TPtr int));
             mkField "Tags" "" "" (TSlice string_)]
            (mkSchema
               [mkTFS "required" "Name" "string" [];
                mkTFS "required" "Deep" "" []])
            (Some (ErrInconvertibleType (TPtr (TPtr int)))) _).
  reflexivity.
Defined.

(** ** Modes and type tags of the entries *)

Lemma loop_ok_entries rec fs i acc out :
  length acc ≤ i →
  loop rec fs i acc = Ret (mkSchema out) None →
  ∃ new, out = acc ++ new
         ∧ Forall (λ e, ∃ sf, sf ∈ fs ∧ entryOf rec sf = Some e) new.
Proof.
  intros Hle H. apply loop_ok in H as (new & -> & HF); [|done].
  exists new. split; [done|].
  apply Forall_forall. intros e He.
  apply list_elem_of_lookup in He as [k Hk].
  destruct (Forall2_lookup_r _ _ _ _ _ HF Hk) as (sf & Hsf & Hent).
  exists sf. split; [|done].
  apply list_elem_of_lookup_2 in Hsf. apply list_elem_of_In in Hsf.
  apply List.filter_In in Hsf as [Hin _]. by apply list_elem_of_In.
Qed.

Lemma simpleType_valid k t : simpleType k = (t, true) → validType t = true.
Proof. destruct k; simpl; intros [= <-]; done. Qed.

Lemma structConversion_type rec v t fields err :
  structConversion rec v = inr (t, fields, err) →
  t = "string" ∨ t = "timestamp" ∨ t = "record".
Proof.
  unfold structConversion. repeat case_match; intros; simplify_eq; auto.
Qed.

Lemma entryOf_tags rec sf e :
  entryOf rec sf = Some e →
  validMode (bigquery.Mode e) = true ∧ validType (bigquery.Type_ e) = true.
Proof.
  unfold entryOf, classify. rewrite tagNameMode_spec.
  destruct (negb (exported sf)); [done|].
  destruct (suppressed sf); [done|].
  assert (Hm : validMode (annotatedMode sf) = true)
    by (by destruct (annotatedMode_cases sf) as [-> | ->]).
  assert (Hsc : ∀ v t' fields,
            structConversion rec v = inr (t', fields, None) →
            validType t' = true).
  { intros v t' fields [-> | [-> | ->]]%structConversion_type; done. }
  assert (Harr : ∀ t,
    match
      (let '(t', isSimple') :=
         simpleType (KindOf (pointerGuard (Elem (pointerGuard (FType sf))))) in
       if isSimple' then VIndexed (mkTFS "repeated" (annotatedName sf) t' [])
       else if negb (bool_decide
                 (KindOf (pointerGuard (Elem (pointerGuard (FType sf)))) = Struct))
       then VAbort (mkTFS "repeated" (annotatedName sf) t []) ErrArrayOfArray
       else
         match structConversion rec
                 (pointerGuard (Elem (pointerGuard (FType sf)))) with
         | inl pn => VFault pn
         | inr (_, _, Some err) =>
             VAbort (mkTFS "repeated" (annotatedName sf) t []) err
         | inr (t', fields, None) =>
             VIndexed (mkTFS "repeated" (annotatedName sf) t' fields)
         end)
    with
    | VEntry e' | VIndexed e' => Some e'
    | _ => None
    end = Some e →
    validMode (bigquery.Mode e) = true ∧ validType (bigquery.Type_ e) = true).
  { intros t.
    destruct (simpleType (KindOf (pointerGuard (Elem _)))) as [t' s'] eqn:Est'.
    destruct s'.
    { intros [= <-]. simpl. split; [done|by eapply simpleType_valid]. }
    destruct (negb _); [done|].
    destruct (structConversion rec _) as [?|[[t'' fields] [?|]]] eqn:Hs;
      simpl; try done.
    intros [= <-]. simpl. split; [done|]. by eapply Hsc. }
  destruct (KindOf (pointerGuard (FType sf))) eqn:Ek; simpl;
    try done; try (intros [= <-]; done); try apply Harr.
  destruct (structConversion rec (pointerGuard (FType sf)))
    as [?|[[t'' fields] [?|]]] eqn:Hs; simpl; try done.
  intros [= <-]. simpl. split; [|by eapply Hsc].
  by destruct (String.eqb t'' "string").
Qed.

Lemma wellTagged_unfold e :
  wellTagged e =
    validMode (bigquery.Mode e) && validType (bigquery.Type_ e)
    && forallb wellTagged (bigquery.Fields e).
Proof. by destruct e. Qed.

Lemma ToSchema_well_tagged_below n t schema :
  size t < n →
  ToSchema t = Ret schema None →
  forallb wellTagged (SFields schema) = true.
Proof.
  revert t schema. induction n as [|n IH]; intros t schema Hn H; [lia|].
  destruct t as [b| | | | | | | |id fs]; try done.
  destruct schema as [out]. simpl in H |- *.
  apply loop_ok_entries in H as (new & -> & HF); [|simpl; lia].
  simpl. apply List.forallb_forall. intros e He%list_elem_of_In.
  rewrite Forall_forall in HF. destruct (HF e He) as (sf & Hin & Hent).
  rewrite wellTagged_unfold.
  destruct (entryOf_tags _ _ _ Hent) as [-> ->]. simpl.
  apply entryOf_leaves, leaves_children in Hent
    as [->|(_ & v & sub & Hv & Hr & ->)]; [done|].
  apply (IH v sub); [|done].
  pose proof (size_field id fs sf Hin). lia.
Qed.

(** X10. In every schema that [ToSchema] returns with a nil error, each
    entry, at every nesting level, has one of the modes "required",
    "nullable", "repeated" and one of the types "boolean", "integer",
    "float", "string", "timestamp", "record"; the empty type of an
    unfinished entry is seen with an error only. *)
Theorem ToSchema_well_tagged t schema :
  ToSchema t = Ret schema None →
  forallb wellTagged (SFields schema) = true.
Proof.
  intros H. apply (ToSchema_well_tagged_below (S (size t)) t); [lia|done].
Qed.

Lemma ToSchema_well_tagged_witness :
  forallb wellTagged
    [mkTFS "required" "ID" "integer" [];
     mkTFS "repeated" "lines" "record"
       [mkTFS "required" "city" "string" [];
        mkTFS "repeated" "Zip" "integer" []];
     mkTFS "repeated" "Stamps" "timestamp" []] = true.
Proof.
  apply (ToSchema_well_tagged Order
           (mkSchema
              [mkTFS "required" "ID" "integer" [];
               mkTFS "repeated" "lines" "record"
                 [mkTFS "required" "city" "string" [];
                  mkTFS "repeated" "Zip" "integer" []];
               mkTFS "repeated" "Stamps" "timestamp" []])).
  reflexivity.
Defined.

Lemma entryOf_repeated rec sf e :
  entryOf rec sf = Some e →
  bigquery.Mode e = "repeated"
  ↔ isArrayOrSlice (pointerGuard (FType sf)) = true.
Proof.
  unfold entryOf, classify. rewrite tagNameMode_spec.
  destruct (negb (exported sf)); [done|].
  destruct (suppressed sf); [done|].
  assert (Hm : annotatedMode sf ≠ "repeated")
    by (by destruct (annotatedMode_cases sf) as [-> | ->]).
  destruct (pointerGuard (FType sf)) as [b| | | | | | | |]; simpl; try done.
  - destruct (simpleType (basicKind b)) as [t s] eqn:Est.
    destruct s; [|by destruct b].
    intros [= <-]. simpl. split; [done|discriminate].
  - repeat case_match; intros; simplify_eq; done.
  - repeat case_match; intros; simplify_eq; done.
  - destruct (structConversion rec _) as [?|[[t'' children] [?|]]];
      simpl; try done.
    intros [= <-]. simpl.
    destruct (String.eqb t'' "string"); split; done.
Qed.

(** X11. When [ToSchema] returns a nil error, the entry of a visible
    field has mode "repeated" exactly when the pointer-unwrapped type of
    the field is an array or a slice; a pointer to a slice counts, and
    [omitempty] never shows in the mode of such a field. *)
Theorem ToSchema_repeated_iff_array id pre sf post schema :
  visible sf = true →
  ToSchema (TStruct id (pre ++ sf :: post)) = Ret schema None →
  ∃ e, SFields schema !! length (List.filter visible pre) = Some e
       ∧ (bigquery.Mode e = "repeated"
          ↔ isArrayOrSlice (pointerGuard (FType sf)) = true).
Proof.
  intros Hvis H. destruct schema as [out]. simpl in *.
  apply loop_at in H as [_ Hok]; [|done].
  destruct (Hok eq_refl) as (e & He & Hent & _).
  exists e. split; [done|]. by eapply entryOf_repeated.
Qed.

Lemma ToSchema_repeated_iff_array_witness :
  ∃ e, [mkTFS "required" "ID" "integer" [];
        mkTFS "repeated" "lines" "record"
          [mkTFS "required" "city" "string" [];
           mkTFS "repeated" "Zip" "integer" []];
        mkTFS "repeated" "Stamps" "timestamp" []] !! 1 = Some e
       ∧ (bigquery.Mode e = "repeated"
          ↔ isArrayOrSlice (TSlice (TPtr Address)) = true).
Proof.
  refine (ToSchema_repeated_iff_array (named "Order")
            [mkField "ID" "" "" int]
            (mkField "Lines" "" "lines,omitempty" (TSlice (TPtr Address)))
            [mkField "Stamps" "" "" (TArray 2 Time);
             mkField "note" "main" "" string_]
            (mkSchema
               [mkTFS "required" "ID" "integer" [];
                mkTFS "repeated" "lines" "record"
                  [mkTFS "required" "city" "string" [];
                   mkTFS "repeated" "Zip" "integer" []];
                mkTFS "repeated" "Stamps" "timestamp" []])
            _ _); reflexivity.
Defined.

(** ** Where the conversion cannot panic *)

Lemma structConversion_fault rec v p :
  structConversion rec v = inl p → rec v = Panic p.
Proof.
  unfold structConversion. repeat case_match; intros; simplify_eq; done.
Qed.

Lemma classify_fault rec sf p :
  classify rec sf = VFault p →
  rec (pointerGuard (FType sf)) = Panic p
  ∨ rec (pointerGuard (Elem (pointerGuard (FType sf)))) = Panic p.
Proof.
  unfold classify.
  destruct (negb (exported sf)); [done|].
  destruct (tagNameMode sf) as [[name mode]|]; [|done].
  destruct (simpleType (KindOf (pointerGuard (FType sf)))) as [t s].
  destruct s; [done|].
  destruct (KindOf (pointerGuard (FType sf))); try done.
  - destruct (simpleType (KindOf (pointerGuard (Elem _)))) as [t' s'].
    destruct s'; [done|]. destruct (negb _); [done|].
    destruct (structConversion rec _) as [pn|[[? ?] [?|]]] eqn:Hs; try done.
    intros [= ->]. right. by apply structConversion_fault.
  - destruct (simpleType (KindOf (pointerGuard (Elem _)))) as [t' s'].
    destruct s'; [done|]. destruct (negb _); [done|].
    destruct (structConversion rec _) as [pn|[[? ?] [?|]]] eqn:Hs; try done.
    intros [= ->]. right. by apply structConversion_fault.
  - destruct (structConversion rec _) as [pn|[[? ?] [?|]]] eqn:Hs; try done.
    intros [= ->]. left. by apply structConversion_fault.
Qed.

Lemma everyStruct_pointerGuard P t :
  everyStruct P t = true → everyStruct P (pointerGuard t) = true.
Proof. by destruct t. Qed.

Lemma everyStruct_Elem P t :
  everyStruct P t = true → everyStruct P (Elem t) = true.
Proof.
  destruct t; simpl; try done. by intros [_ ?]%andb_prop.
Qed.

Lemma everyStruct_fields P id fs :
  everyStruct P (TStruct id fs) = true →
  P fs = true ∧ ∀ sf, sf ∈ fs → everyStruct P (FType sf) = true.
Proof.
  simpl. intros [HP Hfs]%andb_prop. split; [done|].
  intros sf Hin%list_elem_of_In.
  rewrite List.forallb_forall in Hfs. specialize (Hfs sf Hin). by destruct sf.
Qed.

(** Once no array branch is ahead, the index of the loop is not looked
    at any more. *)
Lemma loop_returns_without_arrays rec fs i acc :
  (∀ sf p, sf ∈ fs → classify rec sf ≠ VFault p) →
  forallb (λ sf, negb (repeatedField sf)) fs = true →
  length acc ≤ i →
  ∃ schema err, loop rec fs i acc = Ret schema err.
Proof.
  revert i acc. induction fs as [|sf fs IH]; intros i acc Hnf Hna Hle; simpl.
  - eauto.
  - simpl in Hna. apply andb_prop in Hna as [Hsf Hna].
    assert (Hnf' : ∀ sf' p, sf' ∈ fs → classify rec sf' ≠ VFault p)
      by (intros sf' p Hin; apply Hnf; by right).
    rewrite body_classify by done.
    destruct (classify rec sf) as [|e|e|e err|p] eqn:Hc.
    + apply IH; [done|done|lia].
    + apply IH; [done|done|]. rewrite length_app. simpl. lia.
    + apply classify_indexed in Hc. by rewrite Hc in Hsf.
    + eauto.
    + destruct (Hnf sf p); [left|done].
Qed.

Lemma loop_returns rec fs acc :
  (∀ sf p, sf ∈ fs → classify rec sf ≠ VFault p) →
  arraysBeforeSkips fs = true →
  ∃ schema err, loop rec fs (length acc) acc = Ret schema err.
Proof.
  revert acc. induction fs as [|sf fs IH]; intros acc Hnf Hab; simpl.
  - eauto.
  - simpl in Hab.
    assert (Hnf' : ∀ sf' p, sf' ∈ fs → classify rec sf' ≠ VFault p)
      by (intros sf' p Hin; apply Hnf; by right).
    rewrite body_classify by done.
    rewrite (visible_classify rec sf) in Hab.
    destruct (classify rec sf) as [|e|e|e err|p] eqn:Hc.
    + apply loop_returns_without_arrays; [done|done|lia].
    + specialize (IH (acc ++ [e]) Hnf' Hab).
      rewrite length_app in IH. simpl in IH.
      by replace (length acc + 1) with (S (length acc)) in IH by lia.
    + rewrite bool_decide_true by done.
      specialize (IH (acc ++ [e]) Hnf' Hab).
      rewrite length_app in IH. simpl in IH.
      by replace (length acc + 1) with (S (length acc)) in IH by lia.
    + eauto.
    + destruct (Hnf sf p); [left|done].
Qed.

Lemma ToSchema_returns_below n t :
  size t < n →
  everyStruct arraysBeforeSkips t = true →
  ∃ schema err, ToSchema t = Ret schema err.
Proof.
  revert t. induction n as [|n IH]; intros t Hn Ht; [lia|].
  destruct t as [b| | | | | | | |id fs]; simpl; eauto.
  apply everyStruct_fields in Ht as [Hab Hfs].
  apply (loop_returns ToSchema fs []); [|done].
  intros sf p Hin Hc.
  pose proof (size_field id fs sf Hin) as Hsz.
  pose proof (size_pointerGuard (FType sf)) as Hs1.
  pose proof (size_Elem (pointerGuard (FType sf))) as Hs2.
  pose proof (size_pointerGuard (Elem (pointerGuard (FType sf)))) as Hs3.
  specialize (Hfs sf Hin).
  apply classify_fault in Hc as [Hc|Hc].
  - destruct (IH (pointerGuard (FType sf))) as (s & e & Hr); [lia| |congruence].
    by apply everyStruct_pointerGuard.
  - destruct (IH (pointerGuard (Elem (pointerGuard (FType sf)))))
      as (s & e & Hr); [lia| |congruence].
    by apply everyStruct_pointerGuard, everyStruct_Elem,
      everyStruct_pointerGuard.
Qed.

(** X12. On a type that does not refer to itself (only such types have
    a descriptor here; on a struct type that contains itself through a
    pointer or a slice the code recurses without end), the index
    expressions of the array branch are all in range, and [ToSchema]
    returns its pair instead of panicking, whenever no struct inside the
    type declares a visible array or slice field after an unexported
    field or a field annotated ["-"]. *)
Theorem ToSchema_no_index_panic t :
  everyStruct arraysBeforeSkips t = true →
  ∃ schema err, ToSchema t = Ret schema err.
Proof. apply (ToSchema_returns_below (S (size t))). lia. Qed.

Lemma ToSchema_no_index_panic_witness :
  ∃ schema err, ToSchema Order = Ret schema err.
Proof. apply (ToSchema_no_index_panic Order). reflexivity. Defined.

(** ** Where it does *)

(** X13. After a skipped field, the array branch panics whenever it
    gets as far as its index expression: if the fields declared before
    a visible array or slice field convert with a nil error and one of
    them is unexported or annotated ["-"], and the element type is
    primitive or a struct whose conversion returns a nil error, then
    [ToSchema] panics with an index out of range, the index being the
    position of the field in the struct and the length the number of
    entries so far. *)
Theorem ToSchema_index_fault_after_skip id id' pre sf post before :
  Exists (λ sf', visible sf' = false) pre →
  visible sf = true →
  isArrayOrSlice (pointerGuard (FType sf)) = true →
  primitive (pointerGuard (Elem (pointerGuard (FType sf)))) = true
  ∨ (KindOf (pointerGuard (Elem (pointerGuard (FType sf)))) = Struct
     ∧ (plainStruct (pointerGuard (Elem (pointerGuard (FType sf)))) = true →
        ∃ sub, ToSchema (pointerGuard (Elem (pointerGuard (FType sf)))) =
                 Ret sub None)) →
  ToSchema (TStruct id' pre) = Ret before None →
  ToSchema (TStruct id (pre ++ sf :: post)) =
    Panic (IndexOutOfRange (length pre) (S (length (SFields before)))).
Proof.
  intros Hskip Hvis Ha Helem Hpre.
  pose proof (ToSchema_length _ _ _ Hpre) as Hlen.
  pose proof (filter_visible_length_lt pre Hskip) as Hlt.
  rewrite (ToSchema_at_field id id' pre sf post before Hpre).
  assert (∃ e, classify ToSchema sf = VIndexed e) as [e ->].
  { destruct Helem as [Hp|[Hs Hsub]].
    - pose proof Hvis as [Hex Htag]%visible_tagNameMode.
      apply isArrayOrSlice_kind in Ha as [_ Hk].
      unfold classify. rewrite Hex, Htag. simpl.
      unfold primitive in Hp.
      destruct (simpleType (KindOf (pointerGuard (Elem _)))) as [t s].
      simpl in Hp. subst s. destruct Hk as [-> | ->]; simpl; eauto.
    - rewrite (classify_repeated_struct ToSchema sf Hvis Ha Hs).
      unfold structConversion.
      destruct (String.eqb _ "Key" && _) eqn:Hkey; [eauto|].
      destruct (ConvertibleToTime _) eqn:Hct; [eauto|].
      destruct Hsub as [sub ->]; [|eauto].
      unfold plainStruct, isKey. rewrite Hkey, Hct.
      by rewrite bool_decide_true. }
  rewrite bool_decide_false by lia. done.
Qed.

Lemma ToSchema_index_fault_after_skip_witness :
  ToSchema
    (TStruct (named "Customer")
       [mkField "Name" "" "" string_;
        mkField "Skip" "" "-" Address;
        mkField "Addrs" "" "" (TSlice Address)]) =
    Panic (IndexOutOfRange 2 2).
Proof.
  refine (ToSchema_index_fault_after_skip (named "Customer") unnamed
            [mkField "Name" "" "" string_; mkField "Skip" "" "-" Address]
            (mkField "Addrs" "" "" (TSlice Address)) []
            (mkSchema [mkTFS "required" "Name" "string" []])
            _ _ _ _ _); try reflexivity.
  - apply Exists_cons_tl, Exists_cons_hd. reflexivity.
  - right. split; [reflexivity|]. intros _. eexists. reflexivity.
Defined.

(** ** Skipped fields *)

Lemma loop_skip_without_arrays rec fs i j acc :
  forallb (λ sf, negb (repeatedField sf)) fs = true →
  length acc ≤ i → length acc ≤ j →
  loop rec fs i acc = loop rec (List.filter visible fs) j acc.
Proof.
  revert i j acc.
  induction fs as [|sf fs IH]; intros i j acc Hna Hi Hj; simpl; [done|].
  simpl in Hna. apply andb_prop in Hna as [Hsf Hna].
  rewrite body_classify by done.
  pose proof (visible_classify rec sf) as Hv.
  destruct (classify rec sf) as [|e|e|e err|p] eqn:Hc; rewrite Hv; simpl.
  - apply IH; [done|lia|done].
  - rewrite body_classify, Hc by done.
    apply IH; [done| |]; rewrite length_app; simpl; lia.
  - apply classify_indexed in Hc. by rewrite Hc in Hsf.
  - by rewrite body_classify, Hc by done.
  - by rewrite body_classify, Hc by done.
Qed.

Lemma loop_skip rec fs i acc :
  arraysBeforeSkips fs = true →
  length acc ≤ i →
  loop rec fs i acc = loop rec (List.filter visible fs) i acc.
Proof.
  revert i acc. induction fs as [|sf fs IH]; intros i acc Hab Hi; simpl; [done|].
  simpl in Hab. destruct (visible sf) eqn:Hvis; simpl.
  - destruct (body rec i sf acc) as [acc'| |] eqn:Hb; try done.
    apply IH; [done|].
    rewrite body_classify in Hb by done.
    destruct (classify rec sf); try case_bool_decide; simplify_eq;
      rewrite ?length_app; simpl; lia.
  - rewrite body_classify by done.
    rewrite (visible_classify rec sf) in Hvis.
    destruct (classify rec sf); try done.
    apply loop_skip_without_arrays; [done|lia|done].
Qed.

(** X14. Unexported fields and fields annotated ["-"] have no part in
    the result of a struct in which no visible array or slice field is
    declared after one of them: the conversion is that of the struct
    with the visible fields alone, schema, error and all. *)
Theorem ToSchema_skipped_fields_dropped id fs :
  arraysBeforeSkips fs = true →
  ToSchema (TStruct id fs) = ToSchema (TStruct id (List.filter visible fs)).
Proof. intros Hab. simpl. apply loop_skip; [done|simpl; lia]. Qed.

Lemma ToSchema_skipped_fields_dropped_witness :
  ToSchema Customer =
  ToSchema
    (TStruct (named "Customer")
       [mkField "Name" "" "" string_;
        mkField "Addr" "" "addr,omitempty" (TPtr Address)]).
Proof.
  apply (ToSchema_skipped_fields_dropped (named "Customer")
           [mkField "Name" "" "" string_;
            mkField "Addr" "" "addr,omitempty" (TPtr Address);
            mkField "Skip" "" "-" Address]).
  reflexivity.
Defined.

(** ** Which errors come back *)

Lemma loop_error rec fs i acc schema err :
  length acc ≤ i →
  loop rec fs i acc = Ret schema (Some err) →
  ∃ sf e, sf ∈ fs ∧ classify rec sf = VAbort e err.
Proof.
  revert i acc. induction fs as [|sf fs IH]; intros i acc Hle H; simpl in *.
  - done.
  - rewrite body_classify in H by done.
    assert (Hnext : ∀ acc', length acc' ≤ S i →
              loop rec fs (S i) acc' = Ret schema (Some err) →
              ∃ sf' e, sf' ∈ sf :: fs ∧ classify rec sf' = VAbort e err).
    { intros acc' Hle' H'. apply IH in H' as (sf' & e & Hin & Hc); [|done].
      exists sf', e. split; [by right|done]. }
    destruct (classify rec sf) as [|e|e|e err'|p] eqn:Hc.
    + apply (Hnext acc); [lia|done].
    + apply (Hnext (acc ++ [e])); [rewrite length_app; simpl; lia|done].
    + case_bool_decide; [|done].
      apply (Hnext (acc ++ [e])); [rewrite length_app; simpl; lia|done].
    + injection H as _ <-. exists sf, e. split; [left|done].
    + done.
Qed.

Lemma structConversion_error rec v t fields err :
  structConversion rec v = inr (t, fields, Some err) →
  ∃ sub, rec v = Ret sub (Some err).
Proof.
  unfold structConversion. repeat case_match; intros; simplify_eq; eauto.
Qed.

(** The error of a [return] inside the loop: one of the two errors of
    the loop itself, or the error of a nested call, which is made on a
    value of struct kind. *)
Lemma classify_abort rec sf e err :
  classify rec sf = VAbort e err →
  err = ErrArrayOfArray
  ∨ err = ErrInconvertibleType (FType sf)
  ∨ ∃ v sub, size v ≤ size (FType sf) ∧ KindOf v = Struct
             ∧ rec v = Ret sub (Some err).
Proof.
  unfold classify.
  destruct (negb (exported sf)); [done|].
  destruct (tagNameMode sf) as [[name mode]|]; [|done].
  destruct (simpleType (KindOf (pointerGuard (FType sf)))) as [t s].
  destruct s; [done|].
  pose proof (size_pointerGuard (FType sf)) as Hs1.
  pose proof (size_Elem (pointerGuard (FType sf))) as Hs2.
  pose proof (size_pointerGuard (Elem (pointerGuard (FType sf)))) as Hs3.
  assert (Harr :
    (let '(t', isSimple') :=
       simpleType (KindOf (pointerGuard (Elem (pointerGuard (FType sf))))) in
     if isSimple' then VIndexed (mkTFS "repeated" name t' [])
     else if negb (bool_decide
               (KindOf (pointerGuard (Elem (pointerGuard (FType sf)))) = Struct))
     then VAbort (mkTFS "repeated" name t []) ErrArrayOfArray
     else
       match structConversion rec
               (pointerGuard (Elem (pointerGuard (FType sf)))) with
       | inl pn => VFault pn
       | inr (_, _, Some err) => VAbort (mkTFS "repeated" name t []) err
       | inr (t', fields, None) => VIndexed (mkTFS "repeated" name t' fields)
       end) = VAbort e err →
    err = ErrArrayOfArray
    ∨ err = ErrInconvertibleType (FType sf)
    ∨ ∃ v sub, size v ≤ size (FType sf) ∧ KindOf v = Struct
               ∧ rec v = Ret sub (Some err)).
  { destruct (simpleType (KindOf (pointerGuard (Elem _)))) as [t' s'].
    destruct s'; [done|].
    case_bool_decide as Hk; simpl; [|intros [= _ <-]; by left].
    destruct (structConversion rec (pointerGuard (Elem _)))
      as [pn|[[t'' children] [err'|]]] eqn:Hsc; try done.
    intros [= _ ->]. apply structConversion_error in Hsc as [sub Hr].
    right. right. eexists _, sub. split_and!; [|exact Hk|exact Hr]. lia. }
  destruct (KindOf (pointerGuard (FType sf))) eqn:Hk;
    try (intros [= _ <-]; right; by left); try exact Harr.
  clear Harr.
  destruct (structConversion rec (pointerGuard (FType sf)))
    as [pn|[[t'' children] [err'|]]] eqn:Hsc; try done.
  intros [= _ ->]. apply structConversion_error in Hsc as [sub Hr].
  right. right. eexists _, sub. split_and!; [|exact Hk|exact Hr]. lia.
Qed.

Lemma ToSchema_struct_error_below n t schema err :
  size t < n →
  KindOf t = Struct →
  ToSchema t = Ret schema (Some err) →
  err ≠ ErrNotStruct.
Proof.
  revert t schema err.
  induction n as [|n IH]; intros t schema err Hn Hk H; [lia|].
  destruct t as [b| | | | | | | |id fs]; try done; [by destruct b|].
  simpl in H. apply loop_error in H as (sf & e & Hin & Hc); [|simpl; lia].
  pose proof (size_field id fs sf Hin) as Hsz.
  apply classify_abort in Hc as [->|[->|(v & sub & Hv & Hkv & Hr)]]; try done.
  apply (IH v sub err); [lia|done|done].
Qed.

Lemma ToSchema_struct_or_not (src : option rtype) :
  (∃ schema, ToSchemaOf src = Returned schema (Some ErrNotStruct))
  ↔ ∃ t, src = Some t ∧ KindOf t ≠ Struct.
Proof.
  split.
  - destruct src as [t|]; [|by intros [? ?]].
    intros [schema H]. exists t. split; [done|]. intros Hk.
    unfold ToSchemaOf in H.
    destruct (ToSchema t) as [schema' err|p] eqn:Ht; [|done].
    injection H as -> ->.
    by apply (ToSchema_struct_error_below (S (size t)) t schema ErrNotStruct);
      [lia|..].
  - intros (t & -> & Hk). exists (mkSchema []). by destruct t.
Qed.

(** X15. [ToSchema] returns [ErrNotStruct] exactly when its argument is
    a value, not nil, whose dynamic type is not a struct.  On nil it
    panics inside reflect and returns nothing; on a struct the error is
    never [ErrNotStruct], whatever the fields are made of, since nested
    calls are made on structs only. *)
Theorem ToSchema_ErrNotStruct_iff (src : option rtype) :
  (∃ schema, ToSchemaOf src = Returned schema (Some ErrNotStruct))
  ↔ ∃ t, src = Some t ∧ KindOf t ≠ Struct.
Proof. apply ToSchema_struct_or_not. Qed.

(** ** MustToSchema *)

(** X16. The panic of [MustToSchema] carries [ErrNotStruct] exactly when
    the argument is a value, not nil, whose dynamic type is not a
    struct, a pointer to a struct for one: a struct argument makes it
    return, panic with another error or panic at an index expression,
    and nil makes it panic inside reflect. *)
Theorem MustToSchema_ErrNotStruct_iff (src : option rtype) :
  MustToSchema src = PanicsWith ErrNotStruct
  ↔ ∃ t, src = Some t ∧ KindOf t ≠ Struct.
Proof.
  rewrite <-ToSchema_struct_or_not. unfold MustToSchema.
  destruct (ToSchemaOf src) as [schema [err|]|p|]; split;
    try done; try (by intros [? ?]).
  - intros [= ->]. eauto.
  - intros [schema' H]. by injection H as _ ->.
Qed.

(** X17. On every struct whose visible fields all have a declared type
    among bool, int, int8, int16, int32, int64, uint, uint8, uint16,
    uint32, uint64, float32, float64 and string, [MustToSchema] returns
    and does not panic; the schema has one entry for each visible field,
    in declaration order, with the mode and the name of the annotation,
    the type "boolean", "integer", "float" or "string" of the declared
    type, and no children. *)
Theorem MustToSchema_primitive_fields id fs :
  Forall (λ sf, visible sf = true → is_Some (convertedTag (FType sf))) fs →
  MustToSchema (Some (TStruct id fs)) =
    Returns
      (mkSchema
         (map (λ sf, mkTFS (annotatedMode sf) (annotatedName sf)
                       (default "" (convertedTag (FType sf))) [])
            (List.filter visible fs))).
Proof.
  intros HF. unfold MustToSchema, ToSchemaOf. simpl.
  by rewrite (loop_converted _ _ 0 []) by (done || simpl; lia).
Qed.

Lemma MustToSchema_primitive_fields_witness :
  MustToSchema (Some Flat) =
    Returns (mkSchema
               [mkTFS "required" "A" "boolean" [];
                mkTFS "nullable" "c" "float" [];
                mkTFS "nullable" "" "string" []]).
Proof.
  apply (MustToSchema_primitive_fields (named "Flat")
           [mkField "A" "" "" (TBasic BBool);
            mkField "b" "main" "" (TBasic BFloat64);
            mkField "C" "" "c,omitempty,string" (TBasic BFloat32);
            mkField "D" "" "-" (TBasic BUint16);
            mkField "E" "" ",omitempty" string_]).
  repeat (constructor; [intros _; eexists; reflexivity|]).
  constructor.
Defined.

(** ** Pointers, arrays and slices *)

(** X18. A field declared as a pointer to a struct, to an array or to a
    slice is converted as the same field declared with the struct, the
    array or the slice itself: the two structs have the same result. *)
Theorem ToSchema_pointer_to_composite id pre post name pkg tag (T : rtype) :
  KindOf T = Struct ∨ isArrayOrSlice T = true →
  ToSchema (TStruct id (pre ++ mkField name pkg tag (TPtr T) :: post)) =
  ToSchema (TStruct id (pre ++ mkField name pkg tag T :: post)).
Proof.
  intros HT. simpl. apply loop_congr. intros j l.
  destruct T as [b| | | | | | | |]; destruct HT as [HT|HT]; try done.
  by destruct b.
Qed.

Lemma ToSchema_pointer_to_composite_witness :
  ToSchema Customer =
  ToSchema
    (TStruct (named "Customer")
       [mkField "Name" "" "" string_;
        mkField "Addr" "" "addr,omitempty" Address;
        mkField "Skip" "" "-" Address]).
Proof.
  apply (ToSchema_pointer_to_composite (named "Customer")
           [mkField "Name" "" "" string_]
           [mkField "Skip" "" "-" Address]
           "Addr" "" "addr,omitempty" Address).
  left. reflexivity.
Defined.

(** X19. An array field is converted as a slice field of the same
    element type, whatever its length. *)
Theorem ToSchema_array_as_slice id pre post name pkg tag n (T : rtype) :
  ToSchema (TStruct id (pre ++ mkField name pkg tag (TArray n T) :: post)) =
  ToSchema (TStruct id (pre ++ mkField name pkg tag (TSlice T) :: post)).
Proof.
  simpl. apply loop_congr. intros j l. unfold body. simpl.
  destruct (negb (String.eqb pkg "")); [done|].
  replace (tagNameMode (mkField name pkg tag (TArray n T)))
    with (tagNameMode (mkField name pkg tag (TSlice T))) by done.
  destruct (tagNameMode _) as [[nm mode]|]; [|done].
  destruct (simpleType (KindOf (pointerGuard T))) as [t s].
  destruct s; [done|].
  destruct (negb _); [done|].
  by destruct (structConversion ToSchema (pointerGuard T))
    as [?|[[? ?] [?|]]].
Qed.
